(** * pysc2-replay-parser: a shallow embedding of [transform_replays.py] and
    [custom_features.py], with the properties of the specification that were
    checked against the code.

    Python values are modelled by the data the code inspects: optional flags
    as [option], integer flags as [Z], the sizes accepted by the parser's
    constructor as a small universe of Python values, dictionaries as
    [gmap string _].  Effects (printing, calls on the game controller, calls
    on the agent) are recorded in a trace of events; exceptions are the
    [Raise] outcome of a computation.  Functions of the wrapped toolkit
    (pysc2, s2clientprotocol, numpy) are not part of the repository: they
    are section variables, and may raise. *)

From Stdlib Require Import ZArith QArith List Bool Ascii String.
From stdpp Require Import base option strings pretty gmap list.
Import ListNotations.

Local Open Scope string_scope.
Local Open Scope list_scope.
Local Open Scope Z_scope.

(** ** Python exceptions and outcomes *)

Inductive exn : Type :=
| ValueError (msg : string)
| TypeError (msg : string)
| AssertionError
| NotImplementedError
| UnboundLocalError (msg : string)
| Exception (msg : string).

(** [str(e)] *)
Definition str (e : exn) : string :=
  match e with
  | ValueError msg | TypeError msg | UnboundLocalError msg | Exception msg => msg
  | AssertionError | NotImplementedError => ""
  end.

(** The result of a call that ends: a returned value or a raised exception. *)
Inductive result (A : Type) : Type :=
| Ok (a : A)
| Raise (e : exn).

Arguments Ok {A} a.
Arguments Raise {A} e.

Definition returns {A : Type} (r : result A) : bool :=
  match r with Ok _ => true | Raise _ => false end.

(** Computations that leave a trace of events of type [E].  The outcome is
    [None] when the scripted answers of the game controller are used up before
    the computation is over: the model then says nothing more. *)
Definition M (E A : Type) : Type := (list E * option (result A))%type.

Definition ret {E A : Type} (a : A) : M E A := ([], Some (Ok a)).

Definition raise {E A : Type} (e : exn) : M E A := ([], Some (Raise e)).

Definition emit {E : Type} (ev : E) : M E unit := ([ev], Some (Ok tt)).

Definition lift {E A : Type} (r : result A) : M E A := ([], Some r).

Definition bind {E A B : Type} (m : M E A) (k : A -> M E B) : M E B :=
  match m with
  | (t, Some (Ok a)) => let '(t', r) := k a in (t ++ t', r)
  | (t, Some (Raise e)) => (t, Some (Raise e))
  | (t, None) => (t, None)
  end.

Declare Scope py_scope.
Delimit Scope py_scope with py.
Notation "'do' x <- m ;;; k" := (bind m (fun x => k))
  (at level 10, x name, m at level 99, k at level 200) : py_scope.
Notation "m ;;; k" := (bind m (fun _ => k))
  (at level 100, k at level 200, right associativity) : py_scope.

Definition trace_of {E A : Type} (m : M E A) : list E := fst m.
Definition outcome_of {E A : Type} (m : M E A) : option (result A) := snd m.

(** [for x in xs: body(x)] *)
Fixpoint for_each {E A : Type} (xs : list A) (body : A -> M E unit) : M E unit :=
  match xs with
  | [] => ret tt
  | x :: xs' => (body x ;;; for_each xs' body)%py
  end.

(** [assert b] *)
Definition assert_ (b : bool) : result unit :=
  if b then Ok tt else Raise AssertionError.

(** Python numbers that are either an [int] or a [float] (the discount of a
    time step is the int [0] or the float flag [discount]). *)
Inductive number : Type :=
| NInt (z : Z)
| NFloat (q : Q).

#[local] Set Warnings "-register-all".

(** The Python values a caller can pass for [screen_size] and [minimap_size]. *)
Inductive pyval : Type :=
| PyNone
| PyBool (b : bool)
| PyInt (z : Z)
| PyFloat (q : Q)
| PyStr (s : string)
| PyTuple (items : list pyval)
| PyList (items : list pyval).

(** [isinstance(v, tuple)] *)
Definition isinstance_tuple (v : pyval) : bool :=
  match v with PyTuple _ => true | _ => false end.

(** [isinstance(v, int)]; [bool] is a subclass of [int]. *)
Definition isinstance_int (v : pyval) : bool :=
  match v with PyInt _ | PyBool _ => true | _ => false end.

(** [len(v)] for the values that have a length at the two assertions of the
    constructor (only tuples reach them). *)
Definition len (v : pyval) : option nat :=
  match v with
  | PyTuple items | PyList items => Some (length items)
  | PyStr s => Some (String.length s)
  | _ => None
  end.

(** ** transform_replays.py *)

Module transform_replays.

(** The absl flags of the module. *)
Record Flags : Type := {
  sc2_path : string;
  replay_file : option string;
  replay_dir : option string;
  agent : string;
  screen_size : Z;
  minimap_size : Z;
  step_mul : Z;
  min_game_length : Z;
  discount : Q
}.

Definition default_FLAGS : Flags := {|
  sc2_path := "C:/Program Files (x86)/StarCraft II/";
  replay_file := None;
  replay_dir := None;
  agent := "replay_agent.ReplayAgent";
  screen_size := 64;
  minimap_size := 64;
  step_mul := 4;
  min_game_length := 3000;
  discount := 1%Q
|}.

(** [environment.StepType] *)
Inductive StepType : Type := FIRST | MID | LAST.

(** The protocol messages, with the fields the module reads. *)
Record ResponsePing : Type := {
  ping_base_build : Z
}.

Record PlayerInfo : Type := {
  pi_player_id : Z;
  pi_race_actual : Z
}.

Record PlayerResult : Type := {
  pr_player_id : Z;
  pr_result : Z
}.

Record PlayerInfoExtra : Type := {
  pie_player_info : PlayerInfo;
  pie_player_result : PlayerResult;
  pie_player_mmr : Z;
  pie_player_apm : Z
}.

Record ResponseReplayInfo : Type := {
  ri_map_name : string;
  ri_local_map_path : string;
  ri_player_info : list PlayerInfoExtra;
  ri_game_duration_loops : Z;
  ri_base_build : Z;
  ri_error : option Z
}.

(** [info.HasField('error')] *)
Definition HasField_error (info : ResponseReplayInfo) : bool :=
  match ri_error info with Some _ => true | None => false end.

Section Flags.

Context {E : Type}.
Variable EvPrint : string -> E.

Definition print (s : string) : M E unit := emit (EvPrint s).

(** [check_flags()], lines 34-47. *)
Definition check_flags (FLAGS : Flags) : M E unit :=
  ((match replay_file FLAGS, replay_dir FLAGS with
    | Some _, Some _ =>
        raise (ValueError "Only one of 'replay_file' and 'replay_dir' must be specified.")
    | Some _, None => print "Parsing a single replay."
    | None, Some d => print ("Parsing replays in " +:+ d)
    | None, None =>
        raise (ValueError "Both 'replay_file' and 'replay_dir' not specified.")
    end) ;;;
   if negb (screen_size FLAGS =? minimap_size FLAGS)
   then raise (ValueError "Only supports equal values for 'screen_size' and 'minimap_size'.")
   else ret tt)%py.

(** [ReplayParser.check_valid_replay(info, ping)], lines 178-194; the flag
    [min_game_length] is read from the global [FLAGS]. *)
Definition check_valid_replay (FLAGS : Flags)
    (info : ResponseReplayInfo) (ping : ResponsePing) : M E bool :=
  (if HasField_error info then
     print "Has error..." ;;; ret false
   else if negb (ri_base_build info =? ping_base_build ping) then
     print "Different base build..." ;;; ret true
   else if ri_game_duration_loops info <? min_game_length FLAGS then
     print "Game too short..." ;;; ret false
   else if negb (length (ri_player_info info) =? 2)%nat then
     print "Not a game with two players..." ;;; ret false
   else ret true)%py.

End Flags.

(** *** The replay parser *)

Definition bytes : Type := list Byte.byte.

Record Size2DI : Type := {
  size_x : Z;
  size_y : Z
}.

Record SpatialCameraSetup : Type := {
  width : Z;
  resolution : Size2DI;
  minimap_resolution : Size2DI
}.

Record InterfaceOptions : Type := {
  raw : bool;
  score : bool;
  show_cloaked : bool;
  feature_layer : SpatialCameraSetup
}.

Record RequestStartReplay : Type := {
  req_replay_data : bytes;
  req_map_data : option bytes;
  req_options : InterfaceOptions;
  req_observed_player_id : Z;
  req_disable_fog : bool
}.

(** The entry of [player_meta_info] for one player. *)
Record player_meta : Type := {
  race : string;
  result_ : string;
  apm : Z;
  mmr : Z
}.

Section Parser.

(** The agent object, the actions and observations of the protocol, the
    observation handed to the agent, the game info and the feature object of
    the toolkit are opaque to this module. *)
Context {Agent Action Observation AgentObs ResponseGameInfo Features : Type}.

Record ResponseObservation : Type := {
  obs_actions : list Action;
  obs_player_result : list PlayerResult;
  obs_observation : Observation
}.

(** [environment.TimeStep] *)
Record TimeStep : Type := {
  step_type : StepType;
  reward : Z;
  ts_discount : number;
  ts_observation : AgentObs
}.

(** How the controller fails once its observations are used up: the next
    [step()] raises, or that [step()] returns and [observe()] raises. *)
Inductive controller_failure : Type :=
| StepRaises (e : exn)
| ObserveRaises (e : exn).

(** The controller of a started game client: the static game info, the
    observations that the successive calls of [observe()] will answer, and
    the failure of the controller after them, if it is known ([None] leaves
    open what the controller does next). *)
Record Controller : Type := {
  ctl_game_info : ResponseGameInfo;
  ctl_observations : list ResponseObservation;
  ctl_failure : option controller_failure
}.

(** What the module calls in the toolkit and in the Python library:
    [run_configs.get().start()], [run_config.replay_data] and [map_data],
    the answers of [controller.ping()], [replay_info] and [start_replay], the
    names of the protocol enums, [assign_to] on the point made of a stored
    size, the library's feature object and its [transform_obs], the [step]
    method of the agent that the caller supplies (it returns or raises, and
    line 171 drops what it returns),
    [getattr(importlib.import_module(module), name)] as the result of
    calling the class, and [glob.glob(pattern, recursive=_)]. *)
Record Toolkit : Type := {
  run_config_start : result unit;
  run_config_replay_data : string -> result bytes;
  run_config_map_data : string -> result bytes;
  controller_ping : ResponsePing;
  controller_replay_info : bytes -> ResponseReplayInfo;
  controller_start_replay : RequestStartReplay -> result Controller;
  Race_Name : Z -> result string;
  Result_Name : Z -> result string;
  Point_assign_to : pyval -> result Size2DI;
  features_from_game_info : ResponseGameInfo -> result Features;
  Features_transform_obs : Features -> ResponseObservation -> result AgentObs;
  agent_step : Agent -> TimeStep -> list Action -> result unit;
  load_agent_class : string -> string -> result (result Agent);
  glob_glob : string -> bool -> list string
}.

Variable lib : Toolkit.

Inductive event : Type :=
| EvPrint (s : string)
| EvSetEnv (key value : string)
| EvProcessStart
| EvPing
| EvReplayInfo (data : bytes)
| EvStartReplay (req : RequestStartReplay)
| EvGameInfo
| EvControllerStep (n : Z)
| EvObserve (obs : ResponseObservation)
| EvTransformObs (obs : ResponseObservation)
| EvAgentStep (a : Agent) (step : TimeStep) (actions : list Action)
| EvGlob (pattern : string) (recursive : bool).

Record ReplayParser : Type := {
  self_agent : Agent;
  self_discount : Q;
  self_step_mul : Z;
  self_player_id : Z;
  self_screen_size : pyval;
  self_minimap_size : pyval;
  self_controller : Controller;
  self_map_name : string;
  self_player_meta_info : gmap Z player_meta;
  _episode_length : Z;
  _episode_steps : Z;
  _state : StepType
}.

(** Lines 65-79: a tuple is kept, an int is doubled, anything else raises. *)
Definition configure_size (size : pyval) : result pyval :=
  if isinstance_tuple size then Ok size
  else if isinstance_int size then Ok (PyTuple [size; size])
  else Raise (ValueError "").

Definition len_is_2 (v : pyval) : bool :=
  match len v with Some 2%nat => true | _ => false end.

(** Lines 105-112: the loop that fills [player_meta_info]. *)
Fixpoint collect_player_meta (players : list PlayerInfoExtra)
    (acc : gmap Z player_meta) : result (gmap Z player_meta) :=
  match players with
  | [] => Ok acc
  | player :: rest =>
      match Race_Name lib (pi_race_actual (pie_player_info player)) with
      | Raise e => Raise e
      | Ok r =>
          match Result_Name lib (pr_result (pie_player_result player)) with
          | Raise e => Raise e
          | Ok res =>
              let temp_info := {| race := r; result_ := res;
                                  apm := pie_player_apm player;
                                  mmr := pie_player_mmr player |} in
              collect_player_meta rest
                (<[pi_player_id (pie_player_info player) := temp_info]> acc)
          end
      end
  end.

(** [ReplayParser.__init__], lines 56-143.  [FLAGS] is the module global that
    [check_valid_replay] reads.  Lines 121-122 rebind the two sizes to a
    [Point], a named tuple of the same two items: the stored tuples stand
    for them. *)
Definition ReplayParser__init__ (FLAGS : Flags) (replay_file_path : string)
    (agent : Agent) (player_id : Z) (screen_size minimap_size : pyval)
    (discount : Q) (step_mul : Z) : M event ReplayParser :=
  (do screen_size <- lift (configure_size screen_size) ;;;
   do minimap_size <- lift (configure_size minimap_size) ;;;
   lift (assert_ (len_is_2 screen_size)) ;;;
   lift (assert_ (len_is_2 minimap_size)) ;;;
   emit EvProcessStart ;;;
   lift (run_config_start lib) ;;;
   do replay_data <- lift (run_config_replay_data lib replay_file_path) ;;;
   emit EvPing ;;;
   let ping := controller_ping lib in
   emit (EvReplayInfo replay_data) ;;;
   let info := controller_replay_info lib replay_data in
   do valid <- check_valid_replay EvPrint FLAGS info ping ;;;
   if negb valid then
     raise (Exception (replay_file_path +:+ " is not a valid replay file."))
   else
   do player_meta_info <- lift (collect_player_meta (ri_player_info info) ∅) ;;;
   do res <- lift (Point_assign_to lib screen_size) ;;;
   do minimap_res <- lift (Point_assign_to lib minimap_size) ;;;
   let interface := {| raw := false; score := true; show_cloaked := false;
                       feature_layer := {| width := 24; resolution := res;
                                           minimap_resolution := minimap_res |} |} in
   do map_data <- (if String.eqb (ri_local_map_path info) ""
                   then ret None
                   else do d <- lift (run_config_map_data lib (ri_local_map_path info)) ;;;
                        ret (Some d)) ;;;
   let req := {| req_replay_data := replay_data; req_map_data := map_data;
                 req_options := interface; req_observed_player_id := player_id;
                 req_disable_fog := true |} in
   emit (EvStartReplay req) ;;;
   do controller <- lift (controller_start_replay lib req) ;;;
   ret {| self_agent := agent; self_discount := discount;
          self_step_mul := step_mul; self_player_id := player_id;
          self_screen_size := screen_size; self_minimap_size := minimap_size;
          self_controller := controller;
          self_map_name := ri_map_name info;
          self_player_meta_info := player_meta_info;
          _episode_length := ri_game_duration_loops info;
          _episode_steps := 0;
          _state := FIRST |})%py.

(** [self._state = v] and [self._episode_steps = v] *)
Definition set_state (self : ReplayParser) (v : StepType) : ReplayParser :=
  {| self_agent := self_agent self; self_discount := self_discount self;
     self_step_mul := self_step_mul self; self_player_id := self_player_id self;
     self_screen_size := self_screen_size self;
     self_minimap_size := self_minimap_size self;
     self_controller := self_controller self;
     self_map_name := self_map_name self;
     self_player_meta_info := self_player_meta_info self;
     _episode_length := _episode_length self;
     _episode_steps := _episode_steps self;
     _state := v |}.

Definition set_episode_steps (self : ReplayParser) (v : Z) : ReplayParser :=
  {| self_agent := self_agent self; self_discount := self_discount self;
     self_step_mul := self_step_mul self; self_player_id := self_player_id self;
     self_screen_size := self_screen_size self;
     self_minimap_size := self_minimap_size self;
     self_controller := self_controller self;
     self_map_name := self_map_name self;
     self_player_meta_info := self_player_meta_info self;
     _episode_length := _episode_length self;
     _episode_steps := v;
     _state := _state self |}.

(** The controller after [observe()] has answered: [rest] is still to come. *)
Definition set_observations (self : ReplayParser)
    (rest : list ResponseObservation) : ReplayParser :=
  {| self_agent := self_agent self; self_discount := self_discount self;
     self_step_mul := self_step_mul self; self_player_id := self_player_id self;
     self_screen_size := self_screen_size self;
     self_minimap_size := self_minimap_size self;
     self_controller :=
       {| ctl_game_info := ctl_game_info (self_controller self);
          ctl_observations := rest;
          ctl_failure := ctl_failure (self_controller self) |};
     self_map_name := self_map_name self;
     self_player_meta_info := self_player_meta_info self;
     _episode_length := _episode_length self;
     _episode_steps := _episode_steps self;
     _state := _state self |}.

(** Truth value of the repeated field [obs.player_result]. *)
Definition has_player_result (obs : ResponseObservation) : bool :=
  match obs_player_result obs with [] => false | _ :: _ => true end.

(** Lines 153-157: the guarded transform.  The local variable [agent_obs] is
    [None] while it is unbound; a failed transform prints and leaves it as
    it was. *)
Definition try_transform_obs (_features : Features) (obs : ResponseObservation)
    (agent_obs : option AgentObs) : M event (option AgentObs) :=
  (emit (EvTransformObs obs) ;;;
   match Features_transform_obs lib _features obs with
   | Ok v => ret (Some v)
   | Raise e => print EvPrint (str e +:+ " " +:+ "passing...") ;;; ret agent_obs
   end)%py.

(** Lines 150-176: the loop [while True], one observation of the controller
    per iteration.  [observations] are the answers [observe()] still has;
    after them the controller fails as [ctl_failure] says.  The calls of the
    controller and of the agent are outside the [try]: their exceptions leave
    the loop. *)
Fixpoint start_loop (_features : Features) (self : ReplayParser)
    (agent_obs : option AgentObs) (observations : list ResponseObservation)
    : M event ReplayParser :=
  match observations with
  | [] =>
      (emit (EvControllerStep (self_step_mul self)) ;;;
       match ctl_failure (self_controller self) with
       | Some (StepRaises e) => raise e
       | Some (ObserveRaises e) => raise e
       | None => ([], None)
       end)%py
  | obs :: rest =>
      (emit (EvControllerStep (self_step_mul self)) ;;;
       emit (EvObserve obs) ;;;
       let self := set_observations self rest in
       do agent_obs <- try_transform_obs _features obs agent_obs ;;;
       let self := if has_player_result obs then set_state self LAST else self in
       let discount := if has_player_result obs then NInt 0
                       else NFloat (self_discount self) in
       let self := set_episode_steps self (_episode_steps self + self_step_mul self) in
       match agent_obs with
       | None => raise (UnboundLocalError "agent_obs")
       | Some observation =>
           let step := {| step_type := _state self; reward := 0;
                          ts_discount := discount;
                          ts_observation := observation |} in
           emit (EvAgentStep (self_agent self) step (obs_actions obs)) ;;;
           lift (agent_step lib (self_agent self) step (obs_actions obs)) ;;;
           if has_player_result obs then ret self
           else start_loop _features (set_state self MID) agent_obs rest
       end)%py
  end.

(** [ReplayParser.start], lines 145-176. *)
Definition start (self : ReplayParser) : M event ReplayParser :=
  (emit EvGameInfo ;;;
   do _features <- lift (features_from_game_info lib
                           (ctl_game_info (self_controller self))) ;;;
   start_loop _features self None (ctl_observations (self_controller self)))%py.

(** [os.path.join(a, b)] for two components, as [posixpath] defines it: an
    absolute second component replaces the first. *)
Definition endswith (s suffix : string) : bool :=
  String.prefix (String.rev suffix) (String.rev s).

Definition os_path_join (a b : string) : string :=
  if String.prefix "/" b then b
  else if String.eqb a "" || endswith a "/" then a +:+ b
  else a +:+ "/" +:+ b.

(** The pattern that [main] hands to [glob.glob], line 222. *)
Definition replay_pattern (replay_dir : string) : string :=
  os_path_join replay_dir "/**/*.SC2Replay".

(** [s.rsplit(".", maxsplit=1)] unpacked into two names: the text before the
    last dot and the text after it; [None] when [s] has no dot. *)
Fixpoint rsplit_dot (s : string) : option (string * string) :=
  match s with
  | EmptyString => None
  | String c s' =>
      match rsplit_dot s' with
      | Some (m, n) => Some (String c m, n)
      | None => if Ascii.eqb c "."%char then Some ("", s') else None
      end
  end.

(** One replay: lines 212-220 and 225-233. *)
Definition parse_replay (FLAGS : Flags) (agent_cls : result Agent)
    (replay_file : string) : M event unit :=
  (do agent <- lift agent_cls ;;;
   do parser <- ReplayParser__init__ FLAGS replay_file agent 1
                  (PyInt (screen_size FLAGS)) (PyInt (minimap_size FLAGS))
                  (discount FLAGS) (step_mul FLAGS) ;;;
   do _ <- start parser ;;;
   ret tt)%py.

(** [main], lines 197-233. *)
Definition main (FLAGS : Flags) : M event unit :=
  (check_flags EvPrint FLAGS ;;;
   emit (EvSetEnv "SC2PATH" (sc2_path FLAGS)) ;;;
   do names <- match rsplit_dot (agent FLAGS) with
               | Some names => ret names
               | None => raise (ValueError "not enough values to unpack (expected 2, got 1)")
               end ;;;
   do agent_cls <- lift (load_agent_class lib (fst names) (snd names)) ;;;
   match replay_file FLAGS with
   | Some replay_file => parse_replay FLAGS agent_cls replay_file
   | None =>
       do dir <- match replay_dir FLAGS with
                 | Some d => ret d
                 | None => raise (TypeError "expected str, bytes or os.PathLike object, not NoneType")
                 end ;;;
       let pattern := replay_pattern dir in
       emit (EvGlob pattern true) ;;;
       let replay_files := glob_glob lib pattern true in
       print EvPrint ("Parsing " +:+ pretty (length replay_files) +:+ " replays.") ;;;
       for_each replay_files (parse_replay FLAGS agent_cls)
   end)%py.

End Parser.

Arguments ResponseObservation : clear implicits.
Arguments TimeStep : clear implicits.
Arguments Controller : clear implicits.
Arguments Toolkit : clear implicits.
Arguments event : clear implicits.
Arguments ReplayParser : clear implicits.

End transform_replays.

(** ** custom_features.py *)

Module custom_features.

Definition bind_result {A B : Type} (r : result A) (k : A -> result B) : result B :=
  match r with
  | Ok a => k a
  | Raise e => Raise e
  end.

Declare Scope result_scope.
Delimit Scope result_scope with res.
Notation "'do' x <- m ;;; k" := (bind_result m (fun x => k))
  (at level 10, x name, m at level 99, k at level 200) : result_scope.
Notation "m ;;; k" := (bind_result m (fun _ => k))
  (at level 100, k at level 200, right associativity) : result_scope.

(** [[body(x) for x in xs]], stopping at the first exception. *)
Fixpoint map_result {A B : Type} (body : A -> result B) (xs : list A) : result (list B) :=
  match xs with
  | [] => Ok []
  | x :: xs' =>
      (do y <- body x ;;;
       do ys <- map_result body xs' ;;;
       Ok (y :: ys))%res
  end.

(** [features.FeatureType] *)
Inductive FeatureType : Type := SCALAR | CATEGORICAL.

(** [point.Point] *)
Record Point : Type := {
  x : Z;
  y : Z
}.

(** [features.Dimensions] *)
Record Dimensions : Type := {
  screen : Point;
  minimap : Point
}.

(** [features.AgentInterfaceFormat], with the attributes this module reads
    or sets. *)
Record AgentInterfaceFormat : Type := {
  feature_dimensions : option Dimensions;
  rgb_dimensions : option Dimensions;
  use_feature_units : bool;
  use_raw_units : bool;
  use_unit_counts : bool;
  use_camera_position : bool;
  camera_width_world_units : Z;
  action_space : pyval;
  hide_specific_actions : bool
}.

(** The game info message, with the fields this module reads.  An optional
    sub-message that is absent reads as its default value. *)
Record SpatialCameraSetup : Type := {
  width : Z;
  resolution : Point;
  minimap_resolution : Point
}.

Definition default_SpatialCameraSetup : SpatialCameraSetup :=
  {| width := 0; resolution := {| x := 0; y := 0 |};
     minimap_resolution := {| x := 0; y := 0 |} |}.

Record InterfaceOptions : Type := {
  feature_layer : option SpatialCameraSetup;
  render : option SpatialCameraSetup
}.

Record ResponseGameInfo : Type := {
  options : InterfaceOptions;
  start_raw_map_size : Point
}.

(** The names given to the first axis of a [NamedNumpyArray]. *)
Inductive layer_names : Type :=
| ScreenFeatures
| MinimapFeatures
| SpatialFeaturesNames.

(** [SpatialFeatures._fields], lines 20-22. *)
Definition SpatialFeatures_fields : list string :=
  ["height_map"; "visibility_map"; "creep"; "camera";
   "player_id"; "player_relative"; "selected"; "unit_type"].

(** Modelled from the spec: the fields of the toolkit's [MinimapFeatures],
    the structure that [SpatialFeatures] mirrors with one extra field (the
    toolkit is not part of the repository; the class docstring says
    "Similar to pysc2.lib.features.MinimapFeatures, but with 'unit_type'"). *)
Definition MinimapFeatures_fields : list string :=
  ["height_map"; "visibility_map"; "creep"; "camera";
   "player_id"; "player_relative"; "selected"].

(** [fields.index(name)]: the first position of [name], if any. *)
Fixpoint index_of (name : string) (fields : list string) : option nat :=
  match fields with
  | [] => None
  | f :: fields' =>
      if String.eqb f name then Some 0%nat
      else option_map S (index_of name fields')
  end.

(** [max(xs)] *)
Definition py_max (xs : list Z) : result Z :=
  match xs with
  | [] => Raise (ValueError "max() arg is an empty sequence")
  | v :: xs' => Ok (fold_left Z.max xs' v)
  end.

Section Features.

(** Colour tables, numpy arrays, unpacked layers, protocol observations and
    the state of the toolkit's [Features] base class are opaque. *)
Context {Palette ndarray Layer Observation FeaturesBase : Type}.

(** The third component of a keyword of [SpatialFeatures]: a palette, or a
    callable that builds one from the scale. *)
Inductive palette_arg : Type :=
| Callable (f : Z -> Palette)
| Table (p : Palette).

(** [features.Feature] *)
Record Feature : Type := {
  index : nat;
  name : string;
  layer_set : string;
  full_name : string;
  scale : Z;
  type_ : FeatureType;
  palette : Palette;
  clip : bool
}.

(** A [SpatialFeatures] tuple: one [Feature] per field, in field order. *)
Record SpatialFeatures : Type := {
  height_map : Feature;
  visibility_map : Feature;
  creep : Feature;
  camera : Feature;
  player_id : Feature;
  player_relative : Feature;
  selected : Feature;
  unit_type : Feature
}.

(** The tuple as a sequence: [len(t)], [for f in t]. *)
Definition to_list (t : SpatialFeatures) : list Feature :=
  [height_map t; visibility_map t; creep t; camera t;
   player_id t; player_relative t; selected t; unit_type t].

Definition py_len (t : SpatialFeatures) : Z := Z.of_nat (length (to_list t)).

(** Lines 30-41: the loop over the keywords, filling the dict [feats]. *)
Fixpoint build_feats (kwargs : list (string * (Z * FeatureType * palette_arg)))
    (feats : gmap string Feature) : result (gmap string Feature) :=
  match kwargs with
  | [] => Ok feats
  | (name, (scale, type_, palette)) :: kwargs' =>
      match index_of name SpatialFeatures_fields with
      | None => Raise (ValueError "tuple.index(x): x not in tuple")
      | Some i =>
          build_feats kwargs'
            (<[name := {| index := i;
                          name := name;
                          layer_set := "minimap_renders";
                          full_name := "spatial " +:+ name;
                          scale := scale;
                          type_ := type_;
                          palette := match palette with
                                     | Callable f => f scale
                                     | Table p => p
                                     end;
                          clip := false |}]> feats)
      end
  end.

(** Line 43: the named tuple built from the dict; every field must be there
    (a key that is no field cannot be there: [index] has raised on it). *)
Definition namedtuple_new (feats : gmap string Feature) : result SpatialFeatures :=
  match feats !! "height_map", feats !! "visibility_map", feats !! "creep",
        feats !! "camera", feats !! "player_id", feats !! "player_relative",
        feats !! "selected", feats !! "unit_type" with
  | Some f0, Some f1, Some f2, Some f3, Some f4, Some f5, Some f6, Some f7 =>
      Ok {| height_map := f0; visibility_map := f1; creep := f2; camera := f3;
            player_id := f4; player_relative := f5; selected := f6;
            unit_type := f7 |}
  | _, _, _, _, _, _, _, _ =>
      Raise (TypeError "__new__() missing required positional arguments")
  end.

(** [SpatialFeatures.__new__(cls, **kwargs)], lines 29-43. *)
Definition SpatialFeatures__new__
    (kwargs : list (string * (Z * FeatureType * palette_arg))) : result SpatialFeatures :=
  (do feats <- build_feats kwargs ∅ ;;;
   namedtuple_new feats)%res.

(** The field of a tuple by name: [getattr(t, name)]. *)
Definition getattr (t : SpatialFeatures) (name : string) : option Feature :=
  match index_of name SpatialFeatures_fields with
  | Some i => to_list t !! i
  | None => None
  end.

(** What the module uses of pysc2 and numpy. *)
Record Toolkit : Type := {
  colors_winter : Z -> Palette;
  colors_VISIBILITY_PALETTE : Palette;
  colors_CREEP_PALETTE : Palette;
  colors_CAMERA_PALETTE : Palette;
  colors_PLAYER_ABSOLUTE_PALETTE : Palette;
  colors_PLAYER_RELATIVE_PALETTE : Palette;
  colors_unit_type : Z -> Palette;
  UNIT_TYPES : list Z;
  SCREEN_FEATURES : list Feature;
  MINIMAP_FEATURES : list Feature;
  len_UnitLayer : Z;
  len_Player : Z;
  len_ScoreCumulative : Z;
  len_ScoreByCategory : Z;
  len_ScoreCategories : Z;
  len_ScoreByVital : Z;
  len_ScoreVitals : Z;
  len_FeatureUnit : Z;
  len_UnitCounts : Z;
  Features__init__ : option AgentInterfaceFormat -> option Point -> result FeaturesBase;
  base_agent_interface_format : FeaturesBase -> AgentInterfaceFormat;
  Dimensions_new : Z * Z -> Z * Z -> result Dimensions;
  AgentInterfaceFormat_new : AgentInterfaceFormat -> result AgentInterfaceFormat;
  np_empty : Z -> ndarray;
  np_array_zero : ndarray;
  np_zeros : Z -> Z -> Layer;
  astype_int32 : Layer -> Layer;
  Feature_unpack : Feature -> Observation -> result (option Layer);
  np_stack : list Layer -> result ndarray;
  NamedNumpyArray : ndarray -> layer_names -> result ndarray
}.

Variable lib : Toolkit.

(** [SPATIAL_FEATURES], lines 46-55. *)
Definition SPATIAL_FEATURES : result SpatialFeatures :=
  (do max_unit_type <- py_max (UNIT_TYPES lib) ;;;
   SpatialFeatures__new__
     [("height_map", (256, SCALAR, Callable (colors_winter lib)));
      ("visibility_map", (4, CATEGORICAL, Table (colors_VISIBILITY_PALETTE lib)));
      ("creep", (2, CATEGORICAL, Table (colors_CREEP_PALETTE lib)));
      ("camera", (2, CATEGORICAL, Table (colors_CAMERA_PALETTE lib)));
      ("player_id", (17, CATEGORICAL, Table (colors_PLAYER_ABSOLUTE_PALETTE lib)));
      ("player_relative", (5, CATEGORICAL, Table (colors_PLAYER_RELATIVE_PALETTE lib)));
      ("selected", (2, CATEGORICAL, Callable (colors_winter lib)));
      ("unit_type", (max_unit_type + 1, CATEGORICAL, Callable (colors_unit_type lib)))])%res.

(** A [CustomFeatures] object: the state set up by the base class, which
    holds [_agent_interface_format]. *)
Definition CustomFeatures : Type := FeaturesBase.

Definition _agent_interface_format (self : CustomFeatures) : AgentInterfaceFormat :=
  base_agent_interface_format lib self.

(** Truth value of an optional [Dimensions] attribute. *)
Definition truthy {A : Type} (o : option A) : bool :=
  match o with Some _ => true | None => false end.

(** [CustomFeatures.__init__], lines 63-69. *)
Definition CustomFeatures__init__ (agent_interface_format : option AgentInterfaceFormat)
    (map_size : option Point) : result CustomFeatures :=
  (do self <- Features__init__ lib agent_interface_format map_size ;;;
   (if truthy (feature_dimensions (_agent_interface_format self)) then Ok tt else Ok tt) ;;;
   if truthy (rgb_dimensions (_agent_interface_format self))
   then Raise NotImplementedError
   else Ok self)%res.

(** Shapes of an observation spec. *)
Definition shape : Type := list Z.

(** [CustomFeatures.observation_spec], lines 71-126. *)
Definition observation_spec (spatial : SpatialFeatures) (self : CustomFeatures)
    : result (gmap string shape) :=
  let obs_spec : gmap string shape :=
    list_to_map
      [("action_result", [0]);
       ("alerts", [0]);
       ("available_actions", [0]);
       ("build_queue", [0; len_UnitLayer lib]);
       ("cargo", [0; len_UnitLayer lib]);
       ("cargo_slots_available", [1]);
       ("control_groups", [10; 2]);
       ("game_loop", [1]);
       ("last_actions", [0]);
       ("multi_select", [0; len_UnitLayer lib]);
       ("player", [len_Player lib]);
       ("score_cumulative", [len_ScoreCumulative lib]);
       ("score_by_category", [len_ScoreByCategory lib; len_ScoreCategories lib]);
       ("score_by_vital", [len_ScoreByVital lib; len_ScoreVitals lib]);
       ("single_select", [0; len_UnitLayer lib])] in
  let aif := _agent_interface_format self in
  let obs_spec :=
    match feature_dimensions aif with
    | Some dims =>
        <["feature_spatial" :=
            [py_len spatial; y (minimap dims); x (minimap dims)]]>
        (<["feature_minimap" :=
            [Z.of_nat (length (MINIMAP_FEATURES lib)); y (minimap dims); x (minimap dims)]]>
        (<["feature_screen" :=
            [Z.of_nat (length (SCREEN_FEATURES lib)); y (screen dims); x (screen dims)]]>
         obs_spec))
    | None => obs_spec
    end in
  if truthy (rgb_dimensions aif) then Raise NotImplementedError
  else
    let obs_spec := if use_feature_units aif
                    then <["feature_units" := [0; len_FeatureUnit lib]]> obs_spec
                    else obs_spec in
    let obs_spec := if use_raw_units aif
                    then <["raw_units" := [0; len_FeatureUnit lib]]> obs_spec
                    else obs_spec in
    let obs_spec := if use_unit_counts aif
                    then <["unit_counts" := [0; len_UnitCounts lib]]> obs_spec
                    else obs_spec in
    let obs_spec := if use_camera_position aif
                    then <["camera_position" := [2]]> obs_spec
                    else obs_spec in
    Ok obs_spec.

(** The values of the dictionary that [transform_obs] returns. *)
Inductive value : Type :=
| VNone
| VArray (a : ndarray).

(** The nested [or_zeros], lines 142-146. *)
Definition or_zeros (layer : option Layer) (size : Point) : Layer :=
  match layer with
  | Some l => astype_int32 lib l
  | None => np_zeros lib (y size) (x size)
  end.

(** One stacked, named array: lines 151-154, 155-158, 159-162. *)
Definition render_layers (feats : list Feature) (obs : Observation)
    (size : Point) (names : layer_names) : result ndarray :=
  (do layers <- map_result
                  (fun f => do l <- Feature_unpack lib f obs ;;; Ok (or_zeros l size))
                  feats ;;;
   do stacked <- np_stack lib layers ;;;
   NamedNumpyArray lib stacked names)%res.

(** [CustomFeatures.transform_obs], lines 128-184. *)
Definition transform_obs (spatial : SpatialFeatures) (self : CustomFeatures)
    (obs : Observation) : result (gmap string value) :=
  let empty := np_empty lib (len_UnitLayer lib) in
  let out : gmap string value :=
    list_to_map
      [("single_select", VArray empty);
       ("multi_select", VArray empty);
       ("build_queue", VArray empty);
       ("cargo", VArray empty);
       ("cargo_slots_available", VArray (np_array_zero lib))] in
  let aif := _agent_interface_format self in
  (do out <- match feature_dimensions aif with
             | Some dims =>
                 do a <- render_layers (SCREEN_FEATURES lib) obs (screen dims) ScreenFeatures ;;;
                 let out := <["feature_screen" := VArray a]> out in
                 do a <- render_layers (MINIMAP_FEATURES lib) obs (minimap dims) MinimapFeatures ;;;
                 let out := <["feature_minimap" := VArray a]> out in
                 do a <- render_layers (to_list spatial) obs (minimap dims) SpatialFeaturesNames ;;;
                 Ok (<["feature_spatial" := VArray a]> out)
             | None => Ok out
             end ;;;
   if truthy (rgb_dimensions aif) then Raise NotImplementedError
   else
     let out := <["last_actions" := VNone]> out in
     let out := <["action_result" := VNone]> out in
     let out := <["alerts" := VNone]> out in
     let out := <["game_loop" := VNone]> out in
     let out := <["score_cumulative" := VNone]> out in
     let out := <["score_by_category" := VNone]> out in
     let out := <["score_by_vital" := VNone]> out in
     let out := <["player" := VNone]> out in
     Ok out)%res.

(** [custom_features_from_game_info], lines 187-230. *)
Definition custom_features_from_game_info (game_info : ResponseGameInfo)
    (use_feature_units use_raw_units : bool) (action_space : pyval)
    (hide_specific_actions use_unit_counts use_camera_position : bool)
    : result CustomFeatures :=
  (do feature_dimensions <-
     match feature_layer (options game_info) with
     | Some fl_opts =>
         do d <- Dimensions_new lib
                   (x (resolution fl_opts), y (resolution fl_opts))
                   (x (minimap_resolution fl_opts), y (minimap_resolution fl_opts)) ;;;
         Ok (Some d)
     | None => Ok None
     end ;;;
   do rgb_dimensions <-
     match render (options game_info) with
     | Some _ => Raise NotImplementedError
     | None => Ok (@None Dimensions)
     end ;;;
   let map_size := start_raw_map_size game_info in
   let camera_width_world_units :=
     width (default default_SpatialCameraSetup (feature_layer (options game_info))) in
   do aif <- AgentInterfaceFormat_new lib
               {| feature_dimensions := feature_dimensions;
                  rgb_dimensions := rgb_dimensions;
                  use_feature_units := use_feature_units;
                  use_raw_units := use_raw_units;
                  use_unit_counts := use_unit_counts;
                  use_camera_position := use_camera_position;
                  camera_width_world_units := camera_width_world_units;
                  action_space := action_space;
                  hide_specific_actions := hide_specific_actions |} ;;;
   CustomFeatures__init__ (Some aif) (Some map_size))%res.

End Features.

Arguments palette_arg : clear implicits.
Arguments Feature : clear implicits.
Arguments SpatialFeatures : clear implicits.
Arguments Toolkit : clear implicits.
Arguments value : clear implicits.

End custom_features.

(** * Properties *)

Import transform_replays.

(** ** check_flags *)

Section CheckFlags.

Context {E : Type} (EvPrint : string -> E).

Lemma check_flags_outcome (F : Flags) :
  outcome_of (check_flags EvPrint F) =
    match replay_file F, replay_dir F with
    | Some _, Some _ =>
        Some (Raise (ValueError "Only one of 'replay_file' and 'replay_dir' must be specified."))
    | None, None =>
        Some (Raise (ValueError "Both 'replay_file' and 'replay_dir' not specified."))
    | _, _ =>
        if screen_size F =? minimap_size F then Some (Ok tt)
        else Some (Raise (ValueError "Only supports equal values for 'screen_size' and 'minimap_size'."))
    end.
Proof.
  unfold check_flags, outcome_of.
  destruct (replay_file F), (replay_dir F); cbn; try reflexivity;
    destruct (screen_size F =? minimap_size F); reflexivity.
Qed.

(** The flag configurations that [check_flags] rejects. *)
Definition insane (F : Flags) : Prop :=
  (is_Some (replay_file F) /\ is_Some (replay_dir F))
  \/ (replay_file F = None /\ replay_dir F = None)
  \/ screen_size F <> minimap_size F.

(** C6: [check_flags] raises [ValueError] exactly when both of
    [replay_file] and [replay_dir] are given, or neither is, or the screen
    and minimap sizes differ; with exactly one of the two given and equal
    sizes it returns normally; and it has no other outcome. *)
Theorem check_flags_raises_iff_insane (F : Flags) :
  ((exists msg, outcome_of (check_flags EvPrint F) = Some (Raise (ValueError msg)))
     <-> insane F)
  /\ (outcome_of (check_flags EvPrint F) = Some (Ok tt) <-> ~ insane F)
  /\ (((is_Some (replay_file F) /\ replay_dir F = None)
       \/ (replay_file F = None /\ is_Some (replay_dir F)))
      /\ screen_size F = minimap_size F
      -> outcome_of (check_flags EvPrint F) = Some (Ok tt)).
Proof.
  rewrite check_flags_outcome. unfold insane.
  destruct (replay_file F) as [f|], (replay_dir F) as [d|];
    destruct (Z.eqb_spec (screen_size F) (minimap_size F)) as [Heq|Hne];
    unfold is_Some; firstorder (congruence || eauto).
Qed.

End CheckFlags.

(** ** check_valid_replay *)

Section CheckValidReplay.

Context {E : Type} (EvPrint : string -> E).

(** The boolean that [check_valid_replay] returns, branch by branch. *)
Definition valid_replay_verdict (F : Flags) (info : ResponseReplayInfo)
    (ping : ResponsePing) : bool :=
  if HasField_error info then false
  else if negb (ri_base_build info =? ping_base_build ping) then true
  else if ri_game_duration_loops info <? min_game_length F then false
  else (length (ri_player_info info) =? 2)%nat.

(** [check_valid_replay] always returns a boolean: it never raises. *)
Lemma check_valid_replay_returns (F : Flags) (info : ResponseReplayInfo)
    (ping : ResponsePing) :
  outcome_of (check_valid_replay EvPrint F info ping)
  = Some (Ok (valid_replay_verdict F info ping)).
Proof.
  unfold check_valid_replay, valid_replay_verdict, outcome_of.
  destruct (HasField_error info); [reflexivity|].
  destruct (ri_base_build info =? ping_base_build ping); [|reflexivity].
  destruct (ri_game_duration_loops info <? min_game_length F); [reflexivity|].
  destruct (length (ri_player_info info) =? 2)%nat; reflexivity.
Qed.

(** X1: it returns [False] exactly for a replay with an error, or for one
    of the client's own build that is too short or has not two players. *)
Lemma check_valid_replay_false_iff (F : Flags) (info : ResponseReplayInfo)
    (ping : ResponsePing) :
  outcome_of (check_valid_replay EvPrint F info ping) = Some (Ok false)
  <-> (is_Some (ri_error info)
       \/ (ri_base_build info = ping_base_build ping
           /\ (ri_game_duration_loops info < min_game_length F
               \/ length (ri_player_info info) <> 2%nat))).
Proof.
  rewrite check_valid_replay_returns.
  unfold valid_replay_verdict, HasField_error.
  destruct (ri_error info) as [err|].
  { split; [intros _; left; eexists; reflexivity | reflexivity]. }
  destruct (Z.eqb_spec (ri_base_build info) (ping_base_build ping)) as [Hb|Hb]; cbn.
  - destruct (Z.ltb_spec (ri_game_duration_loops info) (min_game_length F)) as [Hd|Hd].
    + split; [intros _; right; auto | reflexivity].
    + destruct (Nat.eqb_spec (length (ri_player_info info)) 2) as [Hn|Hn].
      * split; [discriminate|].
        intros [[? Hx] | [_ [Hx | Hx]]]; [discriminate | lia | contradiction].
      * split; [intros _; right; auto | reflexivity].
  - split; [discriminate|].
    intros [[? Hx] | [Hx _]]; [discriminate | contradiction].
Qed.

(** A replay of another build is accepted whatever its length and its
    number of players. *)
Lemma check_valid_replay_other_build (F : Flags) (info : ResponseReplayInfo)
    (ping : ResponsePing) :
  ri_error info = None ->
  ri_base_build info <> ping_base_build ping ->
  check_valid_replay EvPrint F info ping
  = ([EvPrint "Different base build..."], Some (Ok true)).
Proof.
  intros He Hb. unfold check_valid_replay, HasField_error. rewrite He.
  destruct (Z.eqb_spec (ri_base_build info) (ping_base_build ping)); [contradiction|].
  reflexivity.
Qed.

End CheckValidReplay.

(** A two-player replay without error, long enough, recorded with base build
    55958, and the ping of a client of base build 80949. *)
Definition two_players : list PlayerInfoExtra :=
  [ {| pie_player_info := {| pi_player_id := 1; pi_race_actual := 1 |};
       pie_player_result := {| pr_player_id := 1; pr_result := 1 |};
       pie_player_mmr := 4100; pie_player_apm := 180 |};
    {| pie_player_info := {| pi_player_id := 2; pi_race_actual := 2 |};
       pie_player_result := {| pr_player_id := 2; pr_result := 2 |};
       pie_player_mmr := 4000; pie_player_apm := 210 |} ].

Definition replay_of_older_build : ResponseReplayInfo :=
  {| ri_map_name := "Acid Plant LE"; ri_local_map_path := "";
     ri_player_info := two_players; ri_game_duration_loops := 20000;
     ri_base_build := 55958; ri_error := None |}.

Definition ping_of_client : ResponsePing := {| ping_base_build := 80949 |}.

(** C1 (the code departs from it): on a replay without error whose base
    build differs from the client's, [check_valid_replay] prints the reason
    and returns [True], where the claim has [False]. *)
Theorem check_valid_replay_build_mismatch_returns_true :
  ri_error replay_of_older_build = None
  /\ ri_base_build replay_of_older_build <> ping_base_build ping_of_client
  /\ check_valid_replay (fun s => s) default_FLAGS replay_of_older_build ping_of_client
     = (["Different base build..."], Some (Ok true)).
Proof.
  split; [reflexivity|]. split; [discriminate|]. reflexivity.
Qed.

(** ** Computations with a trace *)

Section Bind.

Context {E : Type}.

Lemma bind_Ok_inv {A B : Type} (m : M E A) (k : A -> M E B) (t : list E) (b : B) :
  bind m k = (t, Some (Ok b)) ->
  exists t1 a t2, m = (t1, Some (Ok a)) /\ k a = (t2, Some (Ok b)) /\ t = t1 ++ t2.
Proof.
  unfold bind. destruct m as [t1 [[a|e]|]]; try discriminate.
  destruct (k a) as [t2 r] eqn:Hk. intros H. injection H as <- ->.
  exists t1, a, t2. auto.
Qed.

Lemma bind_Ok {A B : Type} (t1 : list E) (a : A) (k : A -> M E B) :
  bind (t1, Some (Ok a)) k = (t1 ++ fst (k a), snd (k a)).
Proof. unfold bind. destruct (k a); reflexivity. Qed.

Lemma bind_lift_Ok {A B : Type} (r : result A) (a : A) (k : A -> M E B) :
  r = Ok a -> bind (lift r) k = k a.
Proof. intros ->. unfold lift, bind. destruct (k a); reflexivity. Qed.

Lemma bind_lift_Raise {A B : Type} (r : result A) (e : exn) (k : A -> M E B) :
  r = Raise e -> bind (lift r) k = ([], Some (Raise e)).
Proof. intros ->. reflexivity. Qed.

Lemma bind_emit {B : Type} (ev : E) (k : unit -> M E B) :
  bind (emit ev) k = (ev :: fst (k tt), snd (k tt)).
Proof. unfold emit, bind. destruct (k tt); reflexivity. Qed.

Lemma lift_Ok_inv {A : Type} (r : result A) (t : list E) (a : A) :
  lift r = (t, Some (Ok a)) -> r = Ok a /\ t = [].
Proof. unfold lift. intros H. injection H as <- ->. auto. Qed.

End Bind.

(** Inverts [H : bind m k = (t, Some (Ok b))] into the run of [m], named
    [Hm], and the run of the continuation, left in [H]. *)
Ltac inv_bind H Hm :=
  let t1 := fresh "t" in
  let a := fresh "a" in
  let t2 := fresh "t" in
  cbv beta zeta in H;
  apply bind_Ok_inv in H as (t1 & a & t2 & Hm & H & ->).

(** ** ReplayParser.__init__ *)

Section Init.

Context {Agent Action Observation AgentObs ResponseGameInfo Features : Type}.
Variable lib : Toolkit Agent Action Observation AgentObs ResponseGameInfo Features.

Abbreviation init := (ReplayParser__init__ lib).


Lemma configure_size_tuple (items : list pyval) :
  configure_size (PyTuple items) = Ok (PyTuple items).
Proof. reflexivity. Qed.









End Init.

(** ** ReplayParser.start *)

Section Start.

Context {Agent Action Observation AgentObs ResponseGameInfo Features : Type}.
Variable lib : Toolkit Agent Action Observation AgentObs ResponseGameInfo Features.

Abbreviation Parser := (ReplayParser Agent Action Observation ResponseGameInfo).
Abbreviation Obs := (ResponseObservation Action Observation).
Abbreviation Event := (event Agent Action Observation AgentObs).

(** What the guarded transform prints, and the value of [agent_obs] after it. *)
Definition transform_prints (f : Features) (obs : Obs) : list Event :=
  match Features_transform_obs lib f obs with
  | Ok _ => []
  | Raise e => [EvPrint (str e +:+ " " +:+ "passing...")]
  end.

Definition next_agent_obs (f : Features) (obs : Obs) (agent_obs : option AgentObs)
    : option AgentObs :=
  match Features_transform_obs lib f obs with
  | Ok v => Some v
  | Raise _ => agent_obs
  end.

Lemma try_transform_obs_eq (f : Features) (obs : Obs) (agent_obs : option AgentObs) :
  try_transform_obs lib f obs agent_obs
  = (EvTransformObs obs :: transform_prints f obs,
     Some (Ok (next_agent_obs f obs agent_obs))).
Proof.
  unfold try_transform_obs, transform_prints, next_agent_obs.
  destruct (Features_transform_obs lib f obs); reflexivity.
Qed.

(** The events of one iteration up to the construction of the time step. *)
Definition iteration_prefix (f : Features) (self : Parser) (obs : Obs) : list Event :=
  [EvControllerStep (self_step_mul self); EvObserve obs; EvTransformObs obs]
  ++ transform_prints f obs.

(** The parser as the iteration on [obs] leaves it, [rest] being the
    observations still to come. *)
Definition after_iteration (self : Parser) (obs : Obs) (rest : list Obs) : Parser :=
  let self := set_observations self rest in
  let self := if has_player_result obs then set_state self LAST else self in
  set_episode_steps self (_episode_steps self + self_step_mul self).

(** The time step that the iteration on [obs] hands to the agent. *)
Definition time_step (self : Parser) (obs : Obs) (observation : AgentObs)
    : TimeStep AgentObs :=
  {| step_type := if has_player_result obs then LAST else _state self;
     reward := 0;
     ts_discount := if has_player_result obs then NInt 0
                    else NFloat (self_discount self);
     ts_observation := observation |}.

(** One iteration of the loop, unfolded. *)
Lemma start_loop_cons (f : Features) (self : Parser) (agent_obs : option AgentObs)
    (obs : Obs) (rest : list Obs) :
  start_loop lib f self agent_obs (obs :: rest)
  = match next_agent_obs f obs agent_obs with
    | None =>
        (iteration_prefix f self obs, Some (Raise (UnboundLocalError "agent_obs")))
    | Some a =>
        let hand := EvAgentStep (self_agent self) (time_step self obs a) (obs_actions obs) in
        match agent_step lib (self_agent self) (time_step self obs a) (obs_actions obs) with
        | Raise e => (iteration_prefix f self obs ++ [hand], Some (Raise e))
        | Ok _ =>
            if has_player_result obs then
              (iteration_prefix f self obs ++ [hand],
               Some (Ok (after_iteration self obs rest)))
            else
              let rec := start_loop lib f (set_state (after_iteration self obs rest) MID)
                           (Some a) rest in
              (iteration_prefix f self obs ++ hand :: fst rec, snd rec)
        end
    end.
Proof.
  cbn [start_loop]. rewrite !bind_emit. cbv zeta.
  rewrite try_transform_obs_eq, bind_Ok. cbv beta.
  unfold iteration_prefix, after_iteration, time_step.
  destruct (next_agent_obs f obs agent_obs) as [a|]; [|cbn; rewrite app_nil_r; reflexivity].
  destruct (has_player_result obs) eqn:Hlast.
  - rewrite bind_emit. cbn.
    destruct (agent_step lib _ _ _) as [[]|e]; cbn; rewrite ?app_nil_r; reflexivity.
  - rewrite bind_emit. cbn [fst snd app set_state set_episode_steps set_observations
                            self_agent self_discount _state _episode_steps
                            self_step_mul].
    destruct (agent_step lib _ _ _) as [[]|e].
    + rewrite (bind_lift_Ok (Ok tt) tt _ eq_refl). reflexivity.
    + rewrite (bind_lift_Raise (Raise e) e _ eq_refl). cbn. reflexivity.
Qed.

(** The time steps handed to the agent, in order. *)
Definition agent_steps (t : list Event) : list (TimeStep AgentObs) :=
  flat_map (fun ev => match ev with EvAgentStep _ step _ => [step] | _ => [] end) t.

Definition is_print (ev : Event) : bool :=
  match ev with EvPrint _ => true | _ => false end.

(** The trace without what was printed. *)
Definition without_prints (t : list Event) : list Event :=
  List.filter (fun ev => negb (is_print ev)) t.

(** The four calls of one iteration, in the order of the loop body. *)
Definition iteration_calls (self : Parser) (o : Obs) (step : TimeStep AgentObs)
    : list Event :=
  [EvControllerStep (self_step_mul self); EvObserve o; EvTransformObs o;
   EvAgentStep (self_agent self) step (obs_actions o)].

(** The step types of a run of [n] iterations followed by the last one. *)
Fixpoint expected_step_types (first : StepType) (n : nat) : list StepType :=
  match n with
  | O => [LAST]
  | S n' => first :: expected_step_types MID n'
  end.

Lemma agent_steps_app (t1 t2 : list Event) :
  agent_steps (t1 ++ t2) = agent_steps t1 ++ agent_steps t2.
Proof. apply flat_map_app. Qed.

Lemma without_prints_app (t1 t2 : list Event) :
  without_prints (t1 ++ t2) = without_prints t1 ++ without_prints t2.
Proof. apply List.filter_app. Qed.

Lemma agent_steps_prefix (f : Features) (self : Parser) (obs : Obs) :
  agent_steps (iteration_prefix f self obs) = [].
Proof.
  unfold iteration_prefix, transform_prints.
  destruct (Features_transform_obs lib f obs); reflexivity.
Qed.

Lemma without_prints_prefix (f : Features) (self : Parser) (obs : Obs) :
  without_prints (iteration_prefix f self obs)
  = [EvControllerStep (self_step_mul self); EvObserve obs; EvTransformObs obs].
Proof.
  unfold iteration_prefix, transform_prints.
  destruct (Features_transform_obs lib f obs); reflexivity.
Qed.

Lemma next_agent_obs_bound (f : Features) (obs : Obs) (a : AgentObs) :
  is_Some (next_agent_obs f obs (Some a)).
Proof.
  unfold next_agent_obs. destruct (Features_transform_obs lib f obs); eauto.
Qed.

(** The first iteration with a failing transform: [agent_obs] is unbound
    when the time step is built. *)
Lemma start_loop_unbound (f : Features) (self : Parser) (obs : Obs)
    (rest : list Obs) (e : exn) :
  Features_transform_obs lib f obs = Raise e ->
  start_loop lib f self None (obs :: rest)
  = ([EvControllerStep (self_step_mul self); EvObserve obs; EvTransformObs obs;
      EvPrint (str e +:+ " " +:+ "passing...")],
     Some (Raise (UnboundLocalError "agent_obs"))).
Proof.
  intros He. rewrite start_loop_cons.
  unfold next_agent_obs, iteration_prefix, transform_prints. rewrite He.
  reflexivity.
Qed.

(** X11: a later iteration with a failing transform: the exception is
    printed and the agent is still called, with a time step that carries the
    observation of the last transform that succeeded. *)
Lemma start_loop_stale (f : Features) (self : Parser) (a : AgentObs) (obs : Obs)
    (rest : list Obs) (e : exn) :
  Features_transform_obs lib f obs = Raise e ->
  exists t r,
    start_loop lib f self (Some a) (obs :: rest)
    = ([EvControllerStep (self_step_mul self); EvObserve obs; EvTransformObs obs;
        EvPrint (str e +:+ " " +:+ "passing...");
        EvAgentStep (self_agent self) (time_step self obs a) (obs_actions obs)] ++ t, r).
Proof.
  intros He. rewrite start_loop_cons.
  unfold next_agent_obs, iteration_prefix, transform_prints. rewrite He.
  cbv zeta. destruct (agent_step lib _ _ _) as [[]|e'].
  - destruct (has_player_result obs).
    + exists [], (Some (Ok (after_iteration self obs rest))). reflexivity.
    + eexists _, _. reflexivity.
  - exists [], (Some (Raise e')). reflexivity.
Qed.

(** A run of the loop over observations [pre] without a player result and
    then [last] with one, [agent_obs] being bound after the first transform
    and the [step] of the parser's agent returning:
    the loop returns after [last], leaving [rest] unobserved; every iteration
    is step, observe, transform, agent step; the step types are the parser's
    state, then [MID], then [LAST] for [last]; the discounts are the
    parser's but for the [0] of the last step. *)
Lemma start_loop_run (f : Features) (pre : list Obs) :
  forall (self : Parser) (agent_obs : option AgentObs) (last : Obs) (rest : list Obs),
  Forall (fun o => has_player_result o = false) pre ->
  has_player_result last = true ->
  is_Some (next_agent_obs f (hd last pre) agent_obs) ->
  (forall step actions, agent_step lib (self_agent self) step actions = Ok tt) ->
  exists t self',
    start_loop lib f self agent_obs (pre ++ last :: rest) = (t, Some (Ok self'))
    /\ ctl_observations (self_controller self') = rest
    /\ _state self' = LAST
    /\ length (agent_steps t) = S (length pre)
    /\ map step_type (agent_steps t) = expected_step_types (_state self) (length pre)
    /\ map ts_discount (agent_steps t)
       = repeat (NFloat (self_discount self)) (length pre) ++ [NInt 0]
    /\ without_prints t
       = flat_map (fun p => iteration_calls self (fst p) (snd p))
           (combine (pre ++ [last]) (agent_steps t)).
Proof.
  induction pre as [|o pre IH];
    intros self agent_obs last rest Hpre Hlast [a Ha] Hstep.
  - cbn [app hd] in *. rewrite start_loop_cons, Ha. cbv zeta.
    rewrite Hstep, Hlast.
    eexists _, _. split; [reflexivity|].
    rewrite agent_steps_app, agent_steps_prefix, without_prints_app,
      without_prints_prefix.
    unfold after_iteration, time_step. rewrite Hlast. cbn.
    repeat split.
  - cbn [app hd] in *. inversion Hpre as [|? ? Ho Hpre']; subst.
    rewrite start_loop_cons, Ha. cbv zeta. rewrite Hstep, Ho.
    set (self1 := set_state (after_iteration self o (pre ++ last :: rest)) MID).
    assert (Hagent : self_agent self1 = self_agent self)
      by (unfold self1, after_iteration; rewrite Ho; reflexivity).
    assert (Hstep1 : forall step actions,
              agent_step lib (self_agent self1) step actions = Ok tt)
      by (intros step actions; rewrite Hagent; apply Hstep).
    destruct (IH self1 (Some a) last rest Hpre' Hlast (next_agent_obs_bound _ _ _)
                Hstep1)
      as (t & self' & Hrun & Hrest & Hstate & Hlen & Htypes & Hdisc & Horder).
    rewrite Hrun. cbn [fst snd].
    eexists _, _. split; [reflexivity|].
    rewrite agent_steps_app, agent_steps_prefix, without_prints_app,
      without_prints_prefix.
    assert (Hmul : self_step_mul self1 = self_step_mul self)
      by (unfold self1, after_iteration; rewrite Ho; reflexivity).
    assert (Hd : self_discount self1 = self_discount self)
      by (unfold self1, after_iteration; rewrite Ho; reflexivity).
    cbn [app agent_steps flat_map without_prints List.filter is_print negb
         length map repeat expected_step_types combine fst snd].
    fold (agent_steps t). fold (without_prints t).
    rewrite Hlen, Htypes, Hdisc, Horder, Hd.
    assert (Hst : _state self1 = MID) by reflexivity.
    assert (Hts : step_type (time_step self o a) = _state self)
      by (unfold time_step; rewrite Ho; reflexivity).
    assert (Htd : ts_discount (time_step self o a) = NFloat (self_discount self))
      by (unfold time_step; rewrite Ho; reflexivity).
    assert (Hcalls : forall p, iteration_calls self1 (fst p) (snd p)
                               = iteration_calls self (fst p) (snd p))
      by (intros p; unfold iteration_calls; rewrite Hmul, Hagent; reflexivity).
    rewrite Hst, Hts, Htd, (flat_map_ext _ _ Hcalls).
    repeat split; auto.
Qed.

(** [start] when the transform fails on the very first observation: the
    exception of the transform is printed, then [UnboundLocalError] leaves the
    loop, and the agent has not been called. *)
Lemma start_unbound (self : Parser) (f : Features) (obs : Obs) (rest : list Obs)
    (e : exn) :
  features_from_game_info lib (ctl_game_info (self_controller self)) = Ok f ->
  ctl_observations (self_controller self) = obs :: rest ->
  Features_transform_obs lib f obs = Raise e ->
  start lib self
  = ([EvGameInfo; EvControllerStep (self_step_mul self); EvObserve obs;
      EvTransformObs obs; EvPrint (str e +:+ " " +:+ "passing...")],
     Some (Raise (UnboundLocalError "agent_obs")))
  /\ agent_steps (trace_of (start lib self)) = [].
Proof.
  intros Hf Hobs He. unfold start.
  rewrite bind_emit, (bind_lift_Ok _ _ _ Hf), Hobs.
  rewrite (start_loop_unbound _ _ _ _ _ He). split; reflexivity.
Qed.

(** X12: [start] on a parser in state [FIRST], when the first transform
    returns and the [step] of the parser's agent returns, on observations
    [pre] without a player result and then [last] with one, all answered by
    the controller: after the call of [game_info] the loop returns after [last],
    leaving [rest] unobserved; every iteration is step, observe, transform,
    agent step; the step types are [FIRST], then [MID], then [LAST] for
    [last]; the discounts are the parser's but for the [0] of the last
    step. *)
Lemma start_run (self : Parser) (f : Features) (pre : list Obs) (last : Obs)
    (rest : list Obs) (a : AgentObs) :
  _state self = FIRST ->
  features_from_game_info lib (ctl_game_info (self_controller self)) = Ok f ->
  ctl_observations (self_controller self) = pre ++ last :: rest ->
  Forall (fun o => has_player_result o = false) pre ->
  has_player_result last = true ->
  Features_transform_obs lib f (hd last pre) = Ok a ->
  (forall step actions, agent_step lib (self_agent self) step actions = Ok tt) ->
  exists t self',
    start lib self = (EvGameInfo :: t, Some (Ok self'))
    /\ ctl_observations (self_controller self') = rest
    /\ _state self' = LAST
    /\ length (agent_steps t) = S (length pre)
    /\ map step_type (agent_steps t) = expected_step_types FIRST (length pre)
    /\ map ts_discount (agent_steps t)
       = repeat (NFloat (self_discount self)) (length pre) ++ [NInt 0]
    /\ without_prints t
       = flat_map (fun p => iteration_calls self (fst p) (snd p))
           (combine (pre ++ [last]) (agent_steps t)).
Proof.
  intros Hst Hf Hobs Hpre Hlast Ha Hstep.
  destruct (start_loop_run f pre self None last rest Hpre Hlast)
    as (t & self' & Hrun & Hrest).
  { unfold next_agent_obs. rewrite Ha. eauto. }
  { exact Hstep. }
  exists t, self'. rewrite <- Hst. split; [|exact Hrest].
  unfold start. rewrite bind_emit, (bind_lift_Ok _ _ _ Hf), Hobs, Hrun.
  reflexivity.
Qed.

End Start.

(** ** A scripted game client *)

(** A toolkit whose controller answers a given list of observations.  The
    observation of the protocol is a number, and the library transform
    rejects the negative ones as it rejects an unknown ability. *)
Definition scripted_transform (_ : unit) (obs : ResponseObservation Z Z) : result Z :=
  if obs_observation obs <? 0 then Raise (ValueError "Unknown ability_id: 3794")
  else Ok (obs_observation obs).

Definition scripted_assign_to (size : pyval) : result Size2DI :=
  match size with
  | PyTuple [PyInt x; PyInt y] => Ok {| size_x := x; size_y := y |}
  | _ => Raise (TypeError "an integer is required")
  end.

Definition scripted (script : list (ResponseObservation Z Z))
    (files : list string) : Toolkit unit Z Z Z unit unit :=
  {| run_config_start := Ok tt;
     run_config_replay_data := fun _ => Ok [];
     run_config_map_data := fun _ => Ok [];
     controller_ping := {| ping_base_build := 80949 |};
     controller_replay_info := fun _ =>
       {| ri_map_name := "Acid Plant LE"; ri_local_map_path := "";
          ri_player_info := two_players; ri_game_duration_loops := 20000;
          ri_base_build := 80949; ri_error := None |};
     controller_start_replay := fun _ =>
       Ok {| ctl_game_info := tt; ctl_observations := script;
             ctl_failure := None |};
     Race_Name := fun _ => Ok "Terran";
     Result_Name := fun _ => Ok "Victory";
     Point_assign_to := scripted_assign_to;
     features_from_game_info := fun _ => Ok tt;
     Features_transform_obs := scripted_transform;
     agent_step := fun _ _ _ => Ok tt;
     load_agent_class := fun _ _ => Ok (Ok tt);
     glob_glob := fun _ _ => files |}.

Definition observation (loop : Z) (actions : list Z) (results : list PlayerResult)
    : ResponseObservation Z Z :=
  {| obs_actions := actions; obs_player_result := results; obs_observation := loop |}.

Definition final_results : list PlayerResult :=
  [ {| pr_player_id := 1; pr_result := 1 |}; {| pr_player_id := 2; pr_result := 2 |} ].

(** The events of the constructor on the scripted client, for sizes 64. *)
Definition scripted_init_events : list (event unit Z Z Z) :=
  [EvProcessStart; EvPing; EvReplayInfo [];
   EvStartReplay
     {| req_replay_data := []; req_map_data := None;
        req_options :=
          {| raw := false; score := true; show_cloaked := false;
             feature_layer :=
               {| width := 24;
                  resolution := {| size_x := 64; size_y := 64 |};
                  minimap_resolution := {| size_x := 64; size_y := 64 |} |} |};
        req_observed_player_id := 1; req_disable_fog := true |}].

Definition flags_of_file : Flags :=
  {| sc2_path := sc2_path default_FLAGS;
     replay_file := Some "game.SC2Replay";
     replay_dir := None;
     agent := agent default_FLAGS;
     screen_size := 64; minimap_size := 64; step_mul := 4;
     min_game_length := 3000; discount := 1%Q |}.

(** A replay of three observations, the last one with the player results:
    the agent gets a [FIRST], a [MID] and a [LAST] step. *)
Example parse_replay_three_steps :
  parse_replay (scripted [observation 4 [7] []; observation 8 [] [];
                          observation 12 [9] final_results] [])
    flags_of_file (Ok tt) "game.SC2Replay"
  = (scripted_init_events ++
     [EvGameInfo;
      EvControllerStep 4; EvObserve (observation 4 [7] []);
      EvTransformObs (observation 4 [7] []);
      EvAgentStep tt {| step_type := FIRST; reward := 0;
                        ts_discount := NFloat 1%Q; ts_observation := 4 |} [7];
      EvControllerStep 4; EvObserve (observation 8 [] []);
      EvTransformObs (observation 8 [] []);
      EvAgentStep tt {| step_type := MID; reward := 0;
                        ts_discount := NFloat 1%Q; ts_observation := 8 |} [];
      EvControllerStep 4; EvObserve (observation 12 [9] final_results);
      EvTransformObs (observation 12 [9] final_results);
      EvAgentStep tt {| step_type := LAST; reward := 0;
                        ts_discount := NInt 0; ts_observation := 12 |} [9]],
     Some (Ok tt)).
Proof. vm_compute. reflexivity. Qed.


(** A replay whose first observation the library transform rejects. *)
Definition rejected_first : ResponseObservation Z Z := observation (-1) [3794] [].

(** C2 (the code departs from it): when [transform_obs] raises in the
    first iteration of the loop, the exception is caught and printed, but no
    time step is built and the agent is not called: [agent_obs] is unbound
    and [UnboundLocalError] leaves [start]. *)
Theorem start_first_transform_failure_escapes :
  scripted_transform tt rejected_first = Raise (ValueError "Unknown ability_id: 3794")
  /\ parse_replay (scripted [rejected_first; observation 8 [] final_results] [])
       flags_of_file (Ok tt) "game.SC2Replay"
     = (scripted_init_events ++
        [EvGameInfo; EvControllerStep 4; EvObserve rejected_first;
         EvTransformObs rejected_first;
         EvPrint "Unknown ability_id: 3794 passing..."],
        Some (Raise (UnboundLocalError "agent_obs"))).
Proof. split; vm_compute; reflexivity. Qed.

(** In a later iteration the failure is survived: the agent gets the
    observation of the first iteration again. *)
Example parse_replay_stale_observation :
  parse_replay (scripted [observation 4 [7] []; observation (-8) [] final_results] [])
    flags_of_file (Ok tt) "game.SC2Replay"
  = (scripted_init_events ++
     [EvGameInfo;
      EvControllerStep 4; EvObserve (observation 4 [7] []);
      EvTransformObs (observation 4 [7] []);
      EvAgentStep tt {| step_type := FIRST; reward := 0;
                        ts_discount := NFloat 1%Q; ts_observation := 4 |} [7];
      EvControllerStep 4; EvObserve (observation (-8) [] final_results);
      EvTransformObs (observation (-8) [] final_results);
      EvPrint "Unknown ability_id: 3794 passing...";
      EvAgentStep tt {| step_type := LAST; reward := 0;
                        ts_discount := NInt 0; ts_observation := 4 |} []],
     Some (Ok tt)).
Proof. vm_compute. reflexivity. Qed.

(** A replay of two observations before the final one, the first of which
    the library transform rejects. *)
Definition rejected_then_played : list (ResponseObservation Z Z) :=
  [observation (-4) [] []; observation 8 [5] []; observation 12 [] final_results].

(** C5 (the code departs from it): on a replay whose first observation
    makes the transform raise, the first iteration steps, observes and
    transforms but never calls the agent, and the loop is left by
    [UnboundLocalError] on an observation without player result, the
    observations that follow being never asked for. *)
Theorem start_loop_left_without_player_result :
  let run := parse_replay (scripted rejected_then_played []) flags_of_file
               (Ok tt) "game.SC2Replay" in
  has_player_result (observation (-4) [] []) = false
  /\ trace_of run
     = scripted_init_events ++
       [EvGameInfo; EvControllerStep 4; EvObserve (observation (-4) [] []);
        EvTransformObs (observation (-4) [] []);
        EvPrint "Unknown ability_id: 3794 passing..."]
  /\ agent_steps (trace_of run) = []
  /\ outcome_of run = Some (Raise (UnboundLocalError "agent_obs")).
Proof. repeat split; vm_compute; reflexivity. Qed.

(** ** main *)

Section Main.

Context {Agent Action Observation AgentObs ResponseGameInfo Features : Type}.
Variable lib : Toolkit Agent Action Observation AgentObs ResponseGameInfo Features.

Lemma os_path_join_absolute (a b : string) :
  String.prefix "/" b = true -> os_path_join a b = b.
Proof. intros H. unfold os_path_join. rewrite H. reflexivity. Qed.

Lemma replay_pattern_constant (d : string) : replay_pattern d = "/**/*.SC2Replay".
Proof. apply os_path_join_absolute. reflexivity. Qed.


End Main.



(** * Further properties of transform_replays.py *)

(** ** What check_valid_replay prints *)

Section ValidReplayMessage.

Context {E : Type} (EvPrint : string -> E).

(** The line that [check_valid_replay] prints, if any. *)
Definition valid_replay_message (F : Flags) (info : ResponseReplayInfo)
    (ping : ResponsePing) : option string :=
  if HasField_error info then Some "Has error..."
  else if negb (ri_base_build info =? ping_base_build ping) then
    Some "Different base build..."
  else if ri_game_duration_loops info <? min_game_length F then
    Some "Game too short..."
  else if negb (length (ri_player_info info) =? 2)%nat then
    Some "Not a game with two players..."
  else None.

Lemma check_valid_replay_eq (F : Flags) (info : ResponseReplayInfo)
    (ping : ResponsePing) :
  check_valid_replay EvPrint F info ping
  = (match valid_replay_message F info ping with
     | Some line => [EvPrint line]
     | None => []
     end,
     Some (Ok (valid_replay_verdict F info ping))).
Proof.
  unfold check_valid_replay, valid_replay_message, valid_replay_verdict.
  destruct (HasField_error info); [reflexivity|].
  destruct (ri_base_build info =? ping_base_build ping); [|reflexivity].
  destruct (ri_game_duration_loops info <? min_game_length F); [reflexivity|].
  destruct (length (ri_player_info info) =? 2)%nat; reflexivity.
Qed.

Lemma rejected_replay_has_message (F : Flags) (info : ResponseReplayInfo)
    (ping : ResponsePing) :
  valid_replay_verdict F info ping = false ->
  exists line, valid_replay_message F info ping = Some line.
Proof.
  unfold valid_replay_message, valid_replay_verdict.
  destruct (HasField_error info); [eauto|].
  destruct (ri_base_build info =? ping_base_build ping); cbn [negb]; [|eauto].
  destruct (ri_game_duration_loops info <? min_game_length F); [eauto|].
  destruct (length (ri_player_info info) =? 2)%nat; [discriminate | eauto].
Qed.

(** X2: [check_valid_replay] prints nothing exactly for a replay without
    error, of the client's base build, at least [min_game_length] loops long
    and with two players, and it then returns [True]; for every other replay
    it prints exactly one line. *)
Theorem check_valid_replay_silent_iff (F : Flags) (info : ResponseReplayInfo)
    (ping : ResponsePing) :
  (trace_of (check_valid_replay EvPrint F info ping) = []
   <-> (ri_error info = None
        /\ ri_base_build info = ping_base_build ping
        /\ min_game_length F <= ri_game_duration_loops info
        /\ length (ri_player_info info) = 2%nat))
  /\ (trace_of (check_valid_replay EvPrint F info ping) = [] ->
      outcome_of (check_valid_replay EvPrint F info ping) = Some (Ok true))
  /\ (trace_of (check_valid_replay EvPrint F info ping) <> [] ->
      exists line, trace_of (check_valid_replay EvPrint F info ping) = [EvPrint line]).
Proof.
  rewrite check_valid_replay_eq. unfold trace_of, outcome_of. cbn [fst snd].
  unfold valid_replay_message, valid_replay_verdict, HasField_error.
  destruct (ri_error info) as [err|].
  { split; [split; [discriminate | intros [Hx _]; discriminate]|].
    split; [discriminate | eauto]. }
  destruct (Z.eqb_spec (ri_base_build info) (ping_base_build ping)) as [Hb|Hb];
    cbn [negb].
  2: { split; [split; [discriminate | intros (_ & Hx & _); contradiction]|].
       split; [discriminate | eauto]. }
  destruct (Z.ltb_spec (ri_game_duration_loops info) (min_game_length F)) as [Hd|Hd].
  { split; [split; [discriminate | intros (_ & _ & Hx & _); lia]|].
    split; [discriminate | eauto]. }
  destruct (Nat.eqb_spec (length (ri_player_info info)) 2) as [Hn|Hn]; cbn [negb].
  - split; [split; auto|]. split; [reflexivity | congruence].
  - split; [split; [discriminate | intros (_ & _ & _ & Hx); contradiction]|].
    split; [discriminate | eauto].
Qed.

End ValidReplayMessage.

(** ** More on ReplayParser.__init__ *)

Section InitMore.

Context {Agent Action Observation AgentObs ResponseGameInfo Features : Type}.
Variable lib : Toolkit Agent Action Observation AgentObs ResponseGameInfo Features.

(** X3: a replay that [check_valid_replay] refuses makes the constructor
    raise [Exception] with the path in its message.  The game process is
    started by then and the replay info was asked for, but the replay itself
    is never started. *)
Theorem init_rejects_invalid_replay (F : Flags) (path : string) (agent : Agent)
    (player : Z) (ss ms ss' ms' : pyval) (d : Q) (mul : Z) (data : bytes) :
  configure_size ss = Ok ss' ->
  configure_size ms = Ok ms' ->
  len_is_2 ss' = true ->
  len_is_2 ms' = true ->
  run_config_start lib = Ok tt ->
  run_config_replay_data lib path = Ok data ->
  valid_replay_verdict F (controller_replay_info lib data) (controller_ping lib) = false ->
  exists line,
    ReplayParser__init__ lib F path agent player ss ms d mul
    = ([EvProcessStart; EvPing; EvReplayInfo data; EvPrint line],
       Some (Raise (Exception (path +:+ " is not a valid replay file.")))).
Proof.
  intros Hss Hms Hl1 Hl2 Hrun Hdata Hverdict.
  destruct (rejected_replay_has_message _ _ _ Hverdict) as [line Hline].
  exists line. unfold ReplayParser__init__.
  rewrite (bind_lift_Ok _ _ _ Hss), (bind_lift_Ok _ _ _ Hms), Hl1, Hl2.
  unfold assert_. rewrite (bind_lift_Ok (Ok tt) tt _ eq_refl).
  rewrite (bind_lift_Ok (Ok tt) tt _ eq_refl).
  rewrite bind_emit, (bind_lift_Ok _ _ _ Hrun), (bind_lift_Ok _ _ _ Hdata).
  rewrite !bind_emit. cbv zeta.
  rewrite check_valid_replay_eq, Hline, Hverdict. reflexivity.
Qed.

(** X4: a constructor that returns has checked the replay: the replay
    is one that [check_valid_replay] accepts, the last event is the request to
    start it, for the observed player and with the fog disabled, at the
    resolutions of the two stored sizes, with map data exactly when the replay
    names a local map; and the parser remembers the length and the map name
    of the replay. *)
Theorem init_returns_started_replay (F : Flags) (path : string) (agent : Agent)
    (player : Z) (ss ms : pyval) (d : Q) (mul : Z)
    (t : list (event Agent Action Observation AgentObs))
    (self : ReplayParser Agent Action Observation ResponseGameInfo) :
  ReplayParser__init__ lib F path agent player ss ms d mul = (t, Some (Ok self)) ->
  exists data req t0,
    run_config_replay_data lib path = Ok data
    /\ valid_replay_verdict F (controller_replay_info lib data) (controller_ping lib) = true
    /\ t = t0 ++ [EvStartReplay req]
    /\ controller_start_replay lib req = Ok (self_controller self)
    /\ req_replay_data req = data
    /\ req_observed_player_id req = player
    /\ req_disable_fog req = true
    /\ Point_assign_to lib (self_screen_size self)
       = Ok (resolution (feature_layer (req_options req)))
    /\ Point_assign_to lib (self_minimap_size self)
       = Ok (minimap_resolution (feature_layer (req_options req)))
    /\ (req_map_data req = None
        <-> ri_local_map_path (controller_replay_info lib data) = "")
    /\ _episode_length self = ri_game_duration_loops (controller_replay_info lib data)
    /\ self_map_name self = ri_map_name (controller_replay_info lib data).
Proof.
  unfold ReplayParser__init__. intros H.
  inv_bind H Hss. inv_bind H Hms. inv_bind H Hl1. inv_bind H Hl2.
  inv_bind H Hev. inv_bind H Hrun. inv_bind H Hdata.
  apply lift_Ok_inv in Hdata as [Hdata _].
  inv_bind H Hping. inv_bind H Hinfo. inv_bind H Hvalid.
  match type of H with (if negb ?v then _ else _) = _ => destruct v end;
    [|discriminate].
  cbn [negb] in H.
  rewrite check_valid_replay_eq in Hvalid. injection Hvalid as _ Hverdict.
  inv_bind H Hmeta. inv_bind H Hres. inv_bind H Hmres.
  apply lift_Ok_inv in Hres as [Hres _]. apply lift_Ok_inv in Hmres as [Hmres _].
  inv_bind H Hmap. inv_bind H Hreq. inv_bind H Hctl.
  apply lift_Ok_inv in Hctl as [Hctl ->].
  unfold emit in Hreq. injection Hreq as <- _.
  unfold ret in H. injection H as <- <-.
  eexists _, _, _. split; [exact Hdata|]. split; [exact Hverdict|].
  split; [rewrite !app_nil_r, !app_assoc; reflexivity|].
  cbn. repeat match goal with |- _ /\ _ => split end; auto.
  split.
  - intros ->.
    match type of Hmap with (if String.eqb ?p "" then _ else _) = _ =>
      destruct (String.eqb_spec p "") as [He|He] end; [exact He|].
    inv_bind Hmap Hd. unfold ret in Hmap. discriminate Hmap.
  - intros He. rewrite He in Hmap. cbn in Hmap. injection Hmap as _ <-. reflexivity.
Qed.

(** ** player_meta_info *)

Abbreviation player_key := (fun p : PlayerInfoExtra => pi_player_id (pie_player_info p)).

(** The entry that the loop of lines 106-112 stores for [player]. *)
Definition describes (player : PlayerInfoExtra) (meta : player_meta) : Prop :=
  Race_Name lib (pi_race_actual (pie_player_info player)) = Ok (race meta)
  /\ Result_Name lib (pr_result (pie_player_result player)) = Ok (result_ meta)
  /\ apm meta = pie_player_apm player
  /\ mmr meta = pie_player_mmr player.

Lemma collect_player_meta_inv (players : list PlayerInfoExtra) :
  forall (acc m : gmap Z player_meta),
  collect_player_meta lib players acc = Ok m ->
  (forall id, is_Some (acc !! id) -> is_Some (m !! id))
  /\ (forall p, In p players -> is_Some (m !! player_key p))
  /\ (forall id meta, m !! id = Some meta ->
        acc !! id = Some meta
        \/ exists p, In p players /\ player_key p = id /\ describes p meta)
  /\ (forall id, (forall p, In p players -> player_key p <> id) -> m !! id = acc !! id).
Proof.
  induction players as [|p players IH]; intros acc m H.
  - injection H as <-. repeat split; auto. intros p [].
  - cbn [collect_player_meta] in H.
    destruct (Race_Name lib _) as [r|e] eqn:Hr; [|discriminate].
    destruct (Result_Name lib _) as [res|e] eqn:Hres; [|discriminate].
    destruct (IH _ _ H) as (Hkeep & Hall & Hfrom & Hother).
    repeat split.
    + intros id Hid. apply Hkeep.
      destruct (decide (player_key p = id)) as [<-|Hne].
      * rewrite lookup_insert_eq. eauto.
      * rewrite lookup_insert_ne by exact Hne. exact Hid.
    + intros q [<-|Hq]; [|apply Hall, Hq].
      apply Hkeep. rewrite lookup_insert_eq. eauto.
    + intros id meta Hm.
      destruct (Hfrom id meta Hm) as [Hacc | (q & Hq & Hk & Hd)].
      * destruct (decide (player_key p = id)) as [<-|Hne].
        -- rewrite lookup_insert_eq in Hacc. injection Hacc as <-.
           right. exists p. split; [left; reflexivity|]. split; [reflexivity|].
           repeat split; assumption.
        -- rewrite lookup_insert_ne in Hacc by exact Hne. left. exact Hacc.
      * right. exists q. split; [right; exact Hq|]. auto.
    + intros id Hid. rewrite Hother by (intros q Hq; apply Hid; right; exact Hq).
      apply lookup_insert_ne. apply Hid. left. reflexivity.
Qed.

(** X5: when the loop that fills [player_meta_info] ends, the dictionary
    has an entry for the id of every player of the replay and for no other
    id, and every entry holds the race name, the result name, the apm and
    the mmr of a player with that id. *)
Theorem player_meta_info_complete (players : list PlayerInfoExtra)
    (m : gmap Z player_meta) :
  collect_player_meta lib players ∅ = Ok m ->
  (forall id, is_Some (m !! id) <-> exists p, In p players /\ player_key p = id)
  /\ (forall id meta, m !! id = Some meta ->
        exists p, In p players /\ player_key p = id /\ describes p meta).
Proof.
  intros H. destruct (collect_player_meta_inv _ _ _ H) as (_ & Hall & Hfrom & Hother).
  assert (Hsome : forall id meta, m !! id = Some meta ->
            exists p, In p players /\ player_key p = id /\ describes p meta).
  { intros id meta Hm. destruct (Hfrom id meta Hm) as [Hacc|Hp]; [|exact Hp].
    rewrite lookup_empty in Hacc. discriminate. }
  split; [|exact Hsome].
  intros id. split.
  - intros [meta Hm]. destruct (Hsome id meta Hm) as (p & Hp & Hk & _). eauto.
  - intros (p & Hp & <-). apply Hall, Hp.
Qed.

(** A protocol enum value without a name stops the constructor's loop with
    the exception of the lookup. *)
Lemma collect_player_meta_unnamed_race (p : PlayerInfoExtra)
    (players : list PlayerInfoExtra) (acc : gmap Z player_meta) (e : exn) :
  Race_Name lib (pi_race_actual (pie_player_info p)) = Raise e ->
  collect_player_meta lib (p :: players) acc = Raise e.
Proof. intros H. cbn [collect_player_meta]. rewrite H. reflexivity. Qed.

End InitMore.

(** ** More on ReplayParser.start *)

Section StartMore.

Context {Agent Action Observation AgentObs ResponseGameInfo Features : Type}.
Variable lib : Toolkit Agent Action Observation AgentObs ResponseGameInfo Features.

Abbreviation Parser' := (ReplayParser Agent Action Observation ResponseGameInfo).
Abbreviation Obs' := (ResponseObservation Action Observation).

(** In any run of the loop, whatever its outcome, a [LAST] step is the
    last step handed to the agent and has discount [0]; the loop then
    returns, unless the agent's [step] raised on that very step, and that
    exception is then the outcome. *)
Lemma start_loop_last_is_final (f : Features) (observations : list Obs') :
  forall (self : Parser') (agent_obs : option AgentObs) t1 step t2,
  _state self <> LAST ->
  agent_steps (trace_of (start_loop lib f self agent_obs observations))
  = t1 ++ step :: t2 ->
  step_type step = LAST ->
  t2 = []
  /\ ts_discount step = NInt 0
  /\ ((exists self', outcome_of (start_loop lib f self agent_obs observations)
                     = Some (Ok self'))
      \/ (exists e actions,
            agent_step lib (self_agent self) step actions = Raise e
            /\ outcome_of (start_loop lib f self agent_obs observations)
               = Some (Raise e))).
Proof.
  induction observations as [|obs rest IH];
    intros self agent_obs t1 step t2 Hstate Hsteps Hlast.
  - cbn [start_loop] in Hsteps.
    destruct (ctl_failure (self_controller self)) as [[e|e]|];
      destruct t1; discriminate Hsteps.
  - rewrite start_loop_cons in Hsteps |- *.
    destruct (next_agent_obs lib f obs agent_obs) as [a|].
    2: { unfold trace_of in Hsteps. cbn [fst] in Hsteps.
         rewrite agent_steps_prefix in Hsteps. destruct t1; discriminate Hsteps. }
    cbv zeta in Hsteps |- *.
    destruct (agent_step lib (self_agent self) (time_step self obs a) (obs_actions obs))
      as [[]|e] eqn:Hagent.
    2: { unfold trace_of, outcome_of in Hsteps |- *. cbn [fst snd] in Hsteps |- *.
         rewrite agent_steps_app, agent_steps_prefix in Hsteps. cbn in Hsteps.
         destruct t1 as [|x t1].
         - injection Hsteps as <- <-.
           assert (Hobs : has_player_result obs = true).
           { unfold time_step in Hlast. cbn in Hlast.
             destruct (has_player_result obs); [reflexivity | contradiction]. }
           split; [reflexivity|]. split.
           + unfold time_step. rewrite Hobs. reflexivity.
           + right. exists e, (obs_actions obs). auto.
         - injection Hsteps as _ Hsteps. destruct t1; discriminate Hsteps. }
    destruct (has_player_result obs) eqn:Hobs.
    + unfold trace_of in Hsteps. cbn [fst] in Hsteps.
      rewrite agent_steps_app, agent_steps_prefix in Hsteps. cbn in Hsteps.
      destruct t1 as [|x t1].
      * injection Hsteps as <- <-. unfold time_step. rewrite Hobs.
        split; [reflexivity|]. split; [reflexivity|]. left. eexists. reflexivity.
      * injection Hsteps as _ Hsteps. destruct t1; discriminate Hsteps.
    + unfold trace_of, outcome_of in Hsteps |- *. cbn [fst snd] in Hsteps |- *.
      rewrite agent_steps_app, agent_steps_prefix in Hsteps.
      cbn [app agent_steps flat_map] in Hsteps.
      fold (agent_steps (fst (start_loop lib f
              (set_state (after_iteration self obs rest) MID) (Some a) rest)))
        in Hsteps.
      destruct t1 as [|x t1].
      * injection Hsteps as <- _. exfalso. apply Hstate.
        unfold time_step in Hlast. rewrite Hobs in Hlast. exact Hlast.
      * injection Hsteps as _ Hsteps.
        assert (Hsame : self_agent (set_state (after_iteration self obs rest) MID)
                        = self_agent self)
          by (unfold after_iteration; rewrite Hobs; reflexivity).
        rewrite <- Hsame.
        apply (IH _ (Some a) t1 step t2); [discriminate | exact Hsteps | exact Hlast].
Qed.

(** X6: in every run of [start] on a parser that is not yet in state
    [LAST] (the constructor leaves it in [FIRST]), also in a run that an
    exception of the toolkit, of the controller or of the agent ends, the
    agent is never called again after a [LAST] step: such a step is the last
    one handed over and its discount is [0]; [start] returns after it, unless
    the agent's [step] raised on that very step, and then this exception
    leaves [start]. *)
Theorem start_never_steps_after_last (self : Parser') t1 step t2 :
  _state self <> LAST ->
  agent_steps (trace_of (start lib self)) = t1 ++ step :: t2 ->
  step_type step = LAST ->
  t2 = []
  /\ ts_discount step = NInt 0
  /\ ((exists self', outcome_of (start lib self) = Some (Ok self'))
      \/ (exists e actions,
            agent_step lib (self_agent self) step actions = Raise e
            /\ outcome_of (start lib self) = Some (Raise e))).
Proof.
  unfold start. rewrite bind_emit.
  destruct (features_from_game_info lib _) as [f|e] eqn:Hf.
  - rewrite (bind_lift_Ok _ _ _ eq_refl).
    unfold trace_of, outcome_of. cbn [fst snd agent_steps flat_map app].
    apply start_loop_last_is_final.
  - rewrite (bind_lift_Raise _ _ _ eq_refl). intros _ H.
    destruct t1; discriminate H.
Qed.

(** When the observations are used up and the controller is known to fail,
    its exception leaves the loop: [step()] and [observe()] are outside the
    [try]. *)
Lemma start_loop_controller_raises (f : Features) (self : Parser')
    (agent_obs : option AgentObs) (e : exn) :
  ctl_failure (self_controller self) = Some (StepRaises e)
  \/ ctl_failure (self_controller self) = Some (ObserveRaises e) ->
  start_loop lib f self agent_obs []
  = ([EvControllerStep (self_step_mul self)], Some (Raise e)).
Proof. intros [H|H]; cbn [start_loop]; rewrite H; reflexivity. Qed.

(** An exception of the agent's [step] leaves the loop at once, after the
    call and before any further call of the controller. *)
Lemma start_loop_agent_raises (f : Features) (self : Parser') (a : AgentObs)
    (agent_obs : option AgentObs) (obs : Obs') (rest : list Obs') (e : exn) :
  next_agent_obs lib f obs agent_obs = Some a ->
  agent_step lib (self_agent self) (time_step self obs a) (obs_actions obs) = Raise e ->
  start_loop lib f self agent_obs (obs :: rest)
  = (iteration_prefix lib f self obs
     ++ [EvAgentStep (self_agent self) (time_step self obs a) (obs_actions obs)],
     Some (Raise e)).
Proof. intros Ha He. rewrite start_loop_cons, Ha. cbv zeta. rewrite He. reflexivity. Qed.

(** A run of the loop that returns has handed one step to the agent per
    observation it consumed, counted [step_mul] game loops for each, and left
    everything else of the parser as it was. *)
Lemma start_loop_returns_inv (f : Features) (observations : list Obs') :
  forall (self self' : Parser') (agent_obs : option AgentObs) t,
  start_loop lib f self agent_obs observations = (t, Some (Ok self')) ->
  let n := length (agent_steps t) in
  _episode_steps self' = _episode_steps self + Z.of_nat n * self_step_mul self
  /\ ctl_observations (self_controller self') = drop n observations
  /\ (0 < n <= length observations)%nat
  /\ _state self' = LAST
  /\ _episode_length self' = _episode_length self
  /\ self_step_mul self' = self_step_mul self
  /\ self_discount self' = self_discount self
  /\ self_agent self' = self_agent self
  /\ self_player_meta_info self' = self_player_meta_info self.
Proof.
  induction observations as [|obs rest IH]; intros self self' agent_obs t H.
  - cbn [start_loop] in H.
    destruct (ctl_failure (self_controller self)) as [[e|e]|]; discriminate H.
  - rewrite start_loop_cons in H.
    destruct (next_agent_obs lib f obs agent_obs) as [a|]; [|discriminate H].
    cbv zeta in H.
    destruct (agent_step lib _ _ _) as [[]|e]; [|discriminate H].
    destruct (has_player_result obs) eqn:Hobs.
    + apply pair_equal_spec in H as [<- Hr]. injection Hr as <-.
      rewrite agent_steps_app, agent_steps_prefix.
      unfold after_iteration. rewrite Hobs. cbn.
      repeat split; try lia.
    + destruct (start_loop lib f (set_state (after_iteration self obs rest) MID)
                  (Some a) rest) as [t' r] eqn:Hrec.
      cbn [fst snd] in H. apply pair_equal_spec in H as [<- ->].
      destruct (IH _ _ _ _ Hrec) as (Hsteps & Hobs' & Hn & Hst & Hlen & Hmul & Hd & Hag & Hmeta).
      rewrite agent_steps_app, agent_steps_prefix.
      cbn [app agent_steps flat_map length]. fold (agent_steps t').
      cbv zeta.
      unfold after_iteration in Hsteps, Hlen, Hmul, Hd, Hag, Hmeta.
      rewrite Hobs in Hsteps, Hlen, Hmul, Hd, Hag, Hmeta.
      cbn in Hsteps, Hlen, Hmul, Hd, Hag, Hmeta. cbn [drop length].
      repeat split; auto; lia.
Qed.

(** X7: when [start] returns, the parser is in state [LAST], its
    [_episode_steps] has grown by [step_mul] for every step handed to the
    agent, the controller has been asked for exactly that many observations,
    at least one, and the episode length, the step multiplier, the discount,
    the agent and the player meta information are unchanged. *)
Theorem start_counts_episode_steps (self self' : Parser')
    (t : list (event Agent Action Observation AgentObs)) :
  start lib self = (t, Some (Ok self')) ->
  let n := length (agent_steps t) in
  _episode_steps self' = _episode_steps self + Z.of_nat n * self_step_mul self
  /\ ctl_observations (self_controller self')
     = drop n (ctl_observations (self_controller self))
  /\ (0 < n <= length (ctl_observations (self_controller self)))%nat
  /\ _state self' = LAST
  /\ _episode_length self' = _episode_length self
  /\ self_step_mul self' = self_step_mul self
  /\ self_discount self' = self_discount self
  /\ self_agent self' = self_agent self
  /\ self_player_meta_info self' = self_player_meta_info self.
Proof.
  unfold start. rewrite bind_emit.
  destruct (features_from_game_info lib _) as [f|e] eqn:Hf.
  - rewrite (bind_lift_Ok _ _ _ eq_refl). intros H.
    destruct (start_loop lib f self None _) as [t' r] eqn:Hrun.
    cbn [fst snd] in H. injection H as <- ->.
    exact (start_loop_returns_inv _ _ _ _ _ _ Hrun).
  - rewrite (bind_lift_Raise _ _ _ eq_refl). discriminate.
Qed.

End StartMore.

(** ** More on main *)

Section MainMore.

Context {Agent Action Observation AgentObs ResponseGameInfo Features : Type}.
Variable lib : Toolkit Agent Action Observation AgentObs ResponseGameInfo Features.

Abbreviation Event' := (event Agent Action Observation AgentObs).

Lemma check_flags_rejects (F : Flags) :
  insane F ->
  exists lines msg,
    check_flags (E := Event') EvPrint F = (map EvPrint lines, Some (Raise (ValueError msg)))
    /\ (length lines <= 1)%nat.
Proof.
  unfold insane, check_flags. intros H.
  destruct (replay_file F) as [file|], (replay_dir F) as [dir|].
  - exists [], "Only one of 'replay_file' and 'replay_dir' must be specified.".
    split; [reflexivity | cbn; lia].
  - destruct (Z.eqb_spec (screen_size F) (minimap_size F)) as [Heq|Hne].
    + exfalso. destruct H as [[_ [? Hx]] | [[Hx _] | Hx]];
        [discriminate | discriminate | contradiction].
    + exists ["Parsing a single replay."],
        "Only supports equal values for 'screen_size' and 'minimap_size'.".
      split; [reflexivity | cbn; lia].
  - destruct (Z.eqb_spec (screen_size F) (minimap_size F)) as [Heq|Hne].
    + exfalso. destruct H as [[[? Hx] _] | [[_ Hx] | Hx]];
        [discriminate | discriminate | contradiction].
    + exists ["Parsing replays in " +:+ dir],
        "Only supports equal values for 'screen_size' and 'minimap_size'.".
      split; [reflexivity | cbn; lia].
  - exists [], "Both 'replay_file' and 'replay_dir' not specified.".
    split; [reflexivity | cbn; lia].
Qed.

(** X8: with flags that [check_flags] rejects, [main] ends with the
    [ValueError] of [check_flags] having printed at most one line and done
    nothing else: the environment is not touched, no agent class is loaded,
    no file is searched and no game process is started. *)
Theorem main_rejected_flags_do_nothing (F : Flags) :
  insane F ->
  exists lines msg,
    main lib F = (map EvPrint lines, Some (Raise (ValueError msg)))
    /\ (length lines <= 1)%nat.
Proof.
  intros H. destruct (check_flags_rejects F H) as (lines & msg & Hc & Hlen).
  exists lines, msg. split; [|exact Hlen].
  unfold main. rewrite Hc. reflexivity.
Qed.






Lemma for_each_stops {E A : Type} (body : A -> M E unit) (pre : list A) (x : A)
    (rest : list A) (t : list E) (e : exn) :
  Forall (fun y => outcome_of (body y) = Some (Ok tt)) pre ->
  body x = (t, Some (Raise e)) ->
  for_each (pre ++ x :: rest) body
  = (flat_map (fun y => trace_of (body y)) pre ++ t, Some (Raise e)).
Proof.
  intros Hpre Hx. induction Hpre as [|y pre Hy _ IH]; cbn [app for_each flat_map].
  - rewrite Hx. reflexivity.
  - destruct (body y) as [ty oy]. unfold outcome_of, trace_of in *. cbn [fst snd] in *.
    subst oy. rewrite bind_Ok, IH. cbn [fst snd]. rewrite app_assoc. reflexivity.
Qed.

Lemma for_each_all {E A : Type} (body : A -> M E unit) (xs : list A) :
  Forall (fun y => outcome_of (body y) = Some (Ok tt)) xs ->
  for_each xs body = (flat_map (fun y => trace_of (body y)) xs, Some (Ok tt)).
Proof.
  intros Hxs. induction Hxs as [|y xs Hy _ IH]; cbn [for_each flat_map].
  - reflexivity.
  - destruct (body y) as [ty oy]. unfold outcome_of, trace_of in *. cbn [fst snd] in *.
    subst oy. rewrite bind_Ok, IH. reflexivity.
Qed.

(** [main] on a directory, up to the loop over the replays found. *)
Lemma main_directory_run (F : Flags) (d : string) (names : string * string)
    (agent_cls : result Agent) :
  replay_file F = None ->
  replay_dir F = Some d ->
  screen_size F = minimap_size F ->
  rsplit_dot (agent F) = Some names ->
  load_agent_class lib (fst names) (snd names) = Ok agent_cls ->
  let replay_files := glob_glob lib "/**/*.SC2Replay" true in
  let parsed := for_each replay_files (parse_replay lib F agent_cls) in
  main lib F
  = ([EvPrint ("Parsing replays in " +:+ d);
      EvSetEnv "SC2PATH" (sc2_path F);
      EvGlob "/**/*.SC2Replay" true;
      EvPrint ("Parsing " +:+ pretty (length replay_files) +:+ " replays.")]
     ++ trace_of parsed,
     outcome_of parsed).
Proof.
  intros Hfile Hdir Hsize Hnames Hcls. cbv zeta. unfold main, check_flags.
  rewrite Hfile, Hdir, Hsize, Z.eqb_refl, Hnames. cbn [negb].
  unfold print, emit, ret. cbn [bind app]. rewrite Hcls. cbn [lift bind app].
  rewrite replay_pattern_constant.
  destruct (for_each _ _) as [t o]. reflexivity.
Qed.

(** X10: in a directory run, the replays found are parsed in the order
    of [glob.glob], each by a new parser, and the first one whose parsing
    raises ends [main] with that exception: the replays after it are never
    opened.  When every replay parses, [main] returns having parsed them
    all. *)
Theorem main_directory_stops_at_first_failure (F : Flags) (d : string)
    (names : string * string) (agent_cls : result Agent) :
  replay_file F = None ->
  replay_dir F = Some d ->
  screen_size F = minimap_size F ->
  rsplit_dot (agent F) = Some names ->
  load_agent_class lib (fst names) (snd names) = Ok agent_cls ->
  let header : list Event' :=
    [EvPrint ("Parsing replays in " +:+ d);
     EvSetEnv "SC2PATH" (sc2_path F);
     EvGlob "/**/*.SC2Replay" true;
     EvPrint ("Parsing " +:+ pretty (length (glob_glob lib "/**/*.SC2Replay" true))
              +:+ " replays.")] in
  let parse := parse_replay lib F agent_cls in
  (forall pre bad rest t e,
     glob_glob lib "/**/*.SC2Replay" true = pre ++ bad :: rest ->
     Forall (fun file => outcome_of (parse file) = Some (Ok tt)) pre ->
     parse bad = (t, Some (Raise e)) ->
     main lib F
     = (header ++ flat_map (fun file => trace_of (parse file)) pre ++ t,
        Some (Raise e)))
  /\ (Forall (fun file => outcome_of (parse file) = Some (Ok tt))
             (glob_glob lib "/**/*.SC2Replay" true) ->
      main lib F
      = (header ++ flat_map (fun file => trace_of (parse file))
                     (glob_glob lib "/**/*.SC2Replay" true),
         Some (Ok tt))).
Proof.
  intros Hfile Hdir Hsize Hnames Hcls. cbv zeta.
  rewrite (main_directory_run F d names agent_cls Hfile Hdir Hsize Hnames Hcls).
  cbv zeta. split.
  - intros pre bad rest t e Hglob Hpre Hbad.
    rewrite Hglob at 2 3. rewrite (for_each_stops _ _ _ _ _ _ Hpre Hbad).
    reflexivity.
  - intros Hall. rewrite (for_each_all _ _ Hall). reflexivity.
Qed.

End MainMore.

(** ** The further properties on the scripted client *)

(** The parser that the constructor returns on the scripted client. *)
Definition scripted_parser (script : list (ResponseObservation Z Z))
    : ReplayParser unit Z Z unit :=
  {| self_agent := tt; self_discount := 1%Q; self_step_mul := 4;
     self_player_id := 1;
     self_screen_size := PyTuple [PyInt 64; PyInt 64];
     self_minimap_size := PyTuple [PyInt 64; PyInt 64];
     self_controller := {| ctl_game_info := tt; ctl_observations := script;
                           ctl_failure := None |};
     self_map_name := "Acid Plant LE";
     self_player_meta_info :=
       <[2 := {| race := "Terran"; result_ := "Victory"; apm := 210; mmr := 4000 |}]>
         (<[1 := {| race := "Terran"; result_ := "Victory"; apm := 180; mmr := 4100 |}]> ∅);
     _episode_length := 20000; _episode_steps := 0; _state := FIRST |}.

Definition three_observations : list (ResponseObservation Z Z) :=
  [observation 4 [7] []; observation (-8) [] []; observation 12 [9] final_results].

Lemma scripted_init_returns (script : list (ResponseObservation Z Z)) :
  ReplayParser__init__ (scripted script []) flags_of_file "game.SC2Replay" tt 1
    (PyInt 64) (PyInt 64) 1%Q 4
  = (scripted_init_events, Some (Ok (scripted_parser script))).
Proof. reflexivity. Qed.

(** Flags that ask for games of 30000 loops at least. *)
Definition flags_long_games : Flags :=
  {| sc2_path := sc2_path default_FLAGS;
     replay_file := None;
     replay_dir := Some "/home/user/replays";
     agent := agent default_FLAGS;
     screen_size := 64; minimap_size := 64; step_mul := 4;
     min_game_length := 30000; discount := 1%Q |}.

Lemma init_rejects_invalid_replay_witness :
  exists line,
    ReplayParser__init__ (scripted [] []) flags_long_games "game.SC2Replay" tt 1
      (PyInt 64) (PyInt 64) 1%Q 4
    = ([EvProcessStart; EvPing; EvReplayInfo []; EvPrint line],
       Some (Raise (Exception "game.SC2Replay is not a valid replay file."))).
Proof.
  exact (init_rejects_invalid_replay (scripted [] []) flags_long_games
           "game.SC2Replay" tt 1 (PyInt 64) (PyInt 64)
           (PyTuple [PyInt 64; PyInt 64]) (PyTuple [PyInt 64; PyInt 64]) 1%Q 4 []
           eq_refl eq_refl eq_refl eq_refl eq_refl eq_refl eq_refl).
Defined.

Lemma init_returns_started_replay_witness :
  exists data req t0,
    valid_replay_verdict flags_of_file
      (controller_replay_info (scripted three_observations []) data)
      (controller_ping (scripted three_observations [])) = true
    /\ scripted_init_events = t0 ++ [EvStartReplay req]
    /\ req_observed_player_id req = 1
    /\ req_disable_fog req = true
    /\ req_map_data req = None.
Proof.
  destruct (init_returns_started_replay (scripted three_observations [])
              flags_of_file "game.SC2Replay" tt 1 (PyInt 64) (PyInt 64) 1%Q 4
              scripted_init_events (scripted_parser three_observations)
              (scripted_init_returns three_observations))
    as (data & req & t0 & _ & Hv & Ht & _ & _ & Hp & Hfog & _ & _ & Hmap & _).
  exists data, req, t0. repeat split; try assumption.
  apply Hmap. reflexivity.
Defined.

Lemma player_meta_info_complete_witness :
  collect_player_meta (scripted [] []) two_players ∅
  = Ok (self_player_meta_info (scripted_parser []))
  /\ (forall id, is_Some (self_player_meta_info (scripted_parser []) !! id)
                 <-> exists p, In p two_players /\ pi_player_id (pie_player_info p) = id).
Proof.
  assert (H : collect_player_meta (scripted [] []) two_players ∅
              = Ok (self_player_meta_info (scripted_parser []))) by reflexivity.
  split; [exact H|].
  exact (proj1 (player_meta_info_complete (scripted [] []) two_players _ H)).
Defined.

Lemma start_run_witness :
  exists t self',
    start (scripted three_observations []) (scripted_parser three_observations)
    = (EvGameInfo :: t, Some (Ok self'))
    /\ ctl_observations (self_controller self') = []
    /\ map step_type (agent_steps t) = [FIRST; MID; LAST]
    /\ map ts_discount (agent_steps t) = [NFloat 1%Q; NFloat 1%Q; NInt 0].
Proof.
  assert (Hpre : Forall (fun o => has_player_result o = false)
                   [observation 4 [7] []; observation (-8) [] []])
    by (repeat constructor).
  destruct (start_run (scripted three_observations [])
              (scripted_parser three_observations) tt
              [observation 4 [7] []; observation (-8) [] []]
              (observation 12 [9] final_results) [] 4
              eq_refl eq_refl eq_refl Hpre eq_refl eq_refl
              (fun _ _ => eq_refl))
    as (t & self' & Hrun & Hrest & _ & _ & Htypes & Hdisc & _).
  exists t, self'. auto.
Defined.

Lemma start_loop_stale_witness :
  exists t r,
    start_loop (scripted three_observations []) tt
      (scripted_parser [observation 12 [9] final_results]) (Some 4)
      [observation (-8) [] []; observation 12 [9] final_results]
    = ([EvControllerStep 4; EvObserve (observation (-8) [] []);
        EvTransformObs (observation (-8) [] []);
        EvPrint "Unknown ability_id: 3794 passing...";
        EvAgentStep tt {| step_type := FIRST; reward := 0;
                          ts_discount := NFloat 1%Q; ts_observation := 4 |} []]
       ++ t, r).
Proof.
  exact (start_loop_stale (scripted three_observations []) tt
           (scripted_parser [observation 12 [9] final_results]) 4
           (observation (-8) [] []) [observation 12 [9] final_results]
           (ValueError "Unknown ability_id: 3794") eq_refl).
Defined.

(** The scripted client with another agent. *)
Definition with_agent_step (lib : Toolkit unit Z Z Z unit unit)
    (step : unit -> TimeStep Z -> list Z -> result unit)
    : Toolkit unit Z Z Z unit unit :=
  {| run_config_start := run_config_start lib;
     run_config_replay_data := run_config_replay_data lib;
     run_config_map_data := run_config_map_data lib;
     controller_ping := controller_ping lib;
     controller_replay_info := controller_replay_info lib;
     controller_start_replay := controller_start_replay lib;
     Race_Name := Race_Name lib;
     Result_Name := Result_Name lib;
     Point_assign_to := Point_assign_to lib;
     features_from_game_info := features_from_game_info lib;
     Features_transform_obs := Features_transform_obs lib;
     agent_step := step;
     load_agent_class := load_agent_class lib;
     glob_glob := glob_glob lib |}.

(** An agent whose [step] raises on the last step of an episode. *)
Definition refuses_last (_ : unit) (step : TimeStep Z) (_ : list Z) : result unit :=
  match step_type step with
  | LAST => Raise (Exception "episode over")
  | _ => Ok tt
  end.

Lemma start_never_steps_after_last_witness :
  (exists self',
     outcome_of (start (scripted three_observations [])
                   (scripted_parser three_observations)) = Some (Ok self'))
  /\ outcome_of (start (with_agent_step (scripted three_observations []) refuses_last)
                   (scripted_parser three_observations))
     = Some (Raise (Exception "episode over")).
Proof.
  split.
  - destruct (start_never_steps_after_last (scripted three_observations [])
                (scripted_parser three_observations)
                [ {| step_type := FIRST; reward := 0; ts_discount := NFloat 1%Q;
                     ts_observation := 4 |};
                  {| step_type := MID; reward := 0; ts_discount := NFloat 1%Q;
                     ts_observation := 4 |} ]
                {| step_type := LAST; reward := 0; ts_discount := NInt 0;
                   ts_observation := 12 |}
                [])
      as (_ & _ & [H | (e & actions & Hagent & _)]);
      [discriminate | reflexivity | reflexivity | exact H | discriminate Hagent].
  - destruct (start_never_steps_after_last
                (with_agent_step (scripted three_observations []) refuses_last)
                (scripted_parser three_observations)
                [ {| step_type := FIRST; reward := 0; ts_discount := NFloat 1%Q;
                     ts_observation := 4 |};
                  {| step_type := MID; reward := 0; ts_discount := NFloat 1%Q;
                     ts_observation := 4 |} ]
                {| step_type := LAST; reward := 0; ts_discount := NInt 0;
                   ts_observation := 12 |}
                [])
      as (_ & _ & [[self' H] | (e & actions & Hagent & H)]);
      [discriminate | reflexivity | reflexivity | discriminate H |].
    injection Hagent as <-. exact H.
Defined.

Lemma start_counts_episode_steps_witness :
  exists t self',
    start (scripted three_observations []) (scripted_parser three_observations)
    = (t, Some (Ok self'))
    /\ _episode_steps self' = 12
    /\ ctl_observations (self_controller self') = []
    /\ _state self' = LAST.
Proof.
  destruct (start (scripted three_observations [])
              (scripted_parser three_observations)) as [t [[self'|e]|]] eqn:H.
  - exists t, self'. split; [reflexivity|].
    destruct (start_counts_episode_steps _ _ _ _ H) as (Hsteps & Hobs & _ & Hst & _).
    vm_compute in H. injection H as <- <-.
    repeat split; reflexivity.
  - exfalso. vm_compute in H. discriminate H.
  - exfalso. vm_compute in H. discriminate H.
Defined.

Lemma main_rejected_flags_do_nothing_witness :
  insane default_FLAGS
  /\ exists lines msg,
       main (scripted three_observations ["/data/a.SC2Replay"]) default_FLAGS
       = (map EvPrint lines, Some (Raise (ValueError msg)))
       /\ (length lines <= 1)%nat.
Proof.
  assert (H : insane default_FLAGS) by (right; left; split; reflexivity).
  split; [exact H|].
  exact (main_rejected_flags_do_nothing
           (scripted three_observations ["/data/a.SC2Replay"]) default_FLAGS H).
Defined.




Lemma main_directory_stops_at_first_failure_witness :
  exists t,
    main (scripted three_observations ["/data/a.SC2Replay"; "/data/b.SC2Replay"])
      flags_long_games
    = ([EvPrint "Parsing replays in /home/user/replays";
        EvSetEnv "SC2PATH" (sc2_path flags_long_games);
        EvGlob "/**/*.SC2Replay" true;
        EvPrint ("Parsing " +:+ pretty 2%nat +:+ " replays.")] ++ t,
       Some (Raise (Exception "/data/a.SC2Replay is not a valid replay file."))).
Proof.
  destruct (main_directory_stops_at_first_failure
              (scripted three_observations ["/data/a.SC2Replay"; "/data/b.SC2Replay"])
              flags_long_games "/home/user/replays" ("replay_agent", "ReplayAgent")
              (Ok tt) eq_refl eq_refl eq_refl eq_refl eq_refl) as [Hstop _].
  eexists.
  refine (Hstop [] "/data/a.SC2Replay" ["/data/b.SC2Replay"] _
            (Exception "/data/a.SC2Replay is not a valid replay file.")
            eq_refl _ eq_refl).
  constructor.
Defined.

(** ** SpatialFeatures *)

Import custom_features.

Section SpatialFeatures.

Context {Palette : Type}.

Abbreviation Kwargs := (list (string * (Z * FeatureType * palette_arg Palette))).

(** The feature that line 32 builds from the keyword [name] and its value
    [(scale, type_, palette)], [i] being [_fields.index(name)]. *)
Definition built (i : nat) (name : string)
    (spec : Z * FeatureType * palette_arg Palette) : Feature Palette :=
  let '(scale, type_, palette) := spec in
  {| index := i; name := name; layer_set := "minimap_renders";
     full_name := "spatial " +:+ name; scale := scale; type_ := type_;
     palette := match palette with Callable f => f scale | Table p => p end;
     clip := false |}.

(** [f] was built from a keyword [name] of [kwargs]. *)
Definition built_from (kwargs : Kwargs) (name : string) (f : Feature Palette) : Prop :=
  exists i spec,
    In (name, spec) kwargs
    /\ index_of name SpatialFeatures_fields = Some i
    /\ f = built i name spec.

Lemma build_feats_inv (kwargs : Kwargs) :
  forall (feats feats' : gmap string (Feature Palette)),
  build_feats kwargs feats = Ok feats' ->
  forall k f, feats' !! k = Some f ->
  feats !! k = Some f \/ built_from kwargs k f.
Proof.
  induction kwargs as [|[name [[scale ty] pal]] kwargs IH]; intros feats feats' H k f Hk.
  - injection H as <-. left. exact Hk.
  - cbn [build_feats] in H.
    destruct (index_of name SpatialFeatures_fields) as [i|] eqn:Hi; [|discriminate].
    destruct (IH _ _ H k f Hk) as [Hin | (j & spec & Hin & Hj & ->)].
    + destruct (decide (name = k)) as [->|Hne].
      * rewrite lookup_insert_eq in Hin. injection Hin as <-.
        right. exists i, (scale, ty, pal). split; [left; reflexivity|]. split; auto.
      * rewrite lookup_insert_ne in Hin by exact Hne. left. exact Hin.
    + right. exists j, spec. split; [right; exact Hin|]. split; auto.
Qed.

(** The tuple holds, in the slot of each field, the entry of the dict. *)
Lemma namedtuple_new_lookup (feats : gmap string (Feature Palette))
    (t : SpatialFeatures Palette) (i : nat) (name : string) :
  namedtuple_new feats = Ok t ->
  SpatialFeatures_fields !! i = Some name ->
  to_list t !! i = feats !! name.
Proof.
  unfold namedtuple_new. intros H Hi.
  destruct (feats !! "height_map") as [f0|] eqn:H0; [|discriminate].
  destruct (feats !! "visibility_map") as [f1|] eqn:H1; [|discriminate].
  destruct (feats !! "creep") as [f2|] eqn:H2; [|discriminate].
  destruct (feats !! "camera") as [f3|] eqn:H3; [|discriminate].
  destruct (feats !! "player_id") as [f4|] eqn:H4; [|discriminate].
  destruct (feats !! "player_relative") as [f5|] eqn:H5; [|discriminate].
  destruct (feats !! "selected") as [f6|] eqn:H6; [|discriminate].
  destruct (feats !! "unit_type") as [f7|] eqn:H7; [|discriminate].
  injection H as <-.
  do 8 (destruct i as [|i]; [injection Hi as <-; cbn; congruence|]).
  discriminate.
Qed.

Lemma index_of_field (i : nat) (name : string) :
  SpatialFeatures_fields !! i = Some name ->
  index_of name SpatialFeatures_fields = Some i.
Proof.
  intros Hi.
  do 8 (destruct i as [|i]; [injection Hi as <-; reflexivity|]).
  discriminate.
Qed.

(** C10: every feature of a tuple that [SpatialFeatures.__new__] returns
    was built from the keyword of its field: its index is the position of
    its name in [_fields], its name is the keyword, its layer set is
    [minimap_renders], its full name is ["spatial "] and the name, its clip
    flag is [False], its scale and type are those given, and its palette is
    [palette(scale)] for a callable palette and the palette itself
    otherwise. *)
Theorem SpatialFeatures_new_invariant (kwargs : Kwargs) (t : SpatialFeatures Palette) :
  SpatialFeatures__new__ kwargs = Ok t ->
  forall (i : nat) (field : string),
  SpatialFeatures_fields !! i = Some field ->
  exists (f : Feature Palette) (scale_ : Z) (ty : FeatureType)
         (pal : palette_arg Palette),
    to_list t !! i = Some f
    /\ getattr t field = Some f
    /\ In (field, (scale_, ty, pal)) kwargs
    /\ index f = i
    /\ name f = field
    /\ layer_set f = "minimap_renders"
    /\ full_name f = "spatial " +:+ field
    /\ scale f = scale_
    /\ type_ f = ty
    /\ palette f = match pal with Callable g => g scale_ | Table p => p end
    /\ clip f = false.
Proof.
  unfold SpatialFeatures__new__. intros H i field Hi.
  destruct (build_feats kwargs ∅) as [feats|e] eqn:Hb; [|discriminate].
  cbn [bind_result] in H.
  pose proof (namedtuple_new_lookup _ _ _ _ H Hi) as Hslot.
  assert (Hsome : is_Some (to_list t !! i)).
  { apply lookup_lt_is_Some. apply lookup_lt_Some in Hi. exact Hi. }
  destruct Hsome as [f Hf]. rewrite Hf in Hslot. symmetry in Hslot.
  destruct (build_feats_inv _ _ _ Hb _ _ Hslot)
    as [Hempty | (j & [[scale_ ty] pal] & Hin & Hj & ->)].
  { rewrite lookup_empty in Hempty. discriminate. }
  rewrite (index_of_field _ _ Hi) in Hj. injection Hj as <-.
  exists (built i field (scale_, ty, pal)), scale_, ty, pal.
  unfold getattr. rewrite (index_of_field _ _ Hi).
  repeat match goal with |- _ /\ _ => split end; auto.
Qed.

End SpatialFeatures.

(** ** SPATIAL_FEATURES *)

Section SpatialFeaturesConstant.

Context {Palette ndarray Layer Observation FeaturesBase : Type}.
Variable lib : Toolkit Palette ndarray Layer Observation FeaturesBase.

Lemma py_max_nonempty (xs : list Z) : xs <> [] -> exists v, py_max xs = Ok v.
Proof. destruct xs as [|v xs]; [congruence|]. intros _. eexists. reflexivity. Qed.

(** C7: [SpatialFeatures] has exactly the 8 fields [height_map],
    [visibility_map], [creep], [camera], [player_id], [player_relative],
    [selected], [unit_type], in this order: the fields of the toolkit's
    [MinimapFeatures] and the one extra field [unit_type].  With a table of
    unit types that is not empty, [SPATIAL_FEATURES] is such a tuple, its
    features named after the fields in order, and its length is that of
    [MINIMAP_FEATURES] plus one. *)
Theorem SPATIAL_FEATURES_mirrors_minimap :
  UNIT_TYPES lib <> [] ->
  SpatialFeatures_fields
  = ["height_map"; "visibility_map"; "creep"; "camera";
     "player_id"; "player_relative"; "selected"; "unit_type"]
  /\ length SpatialFeatures_fields = 8%nat
  /\ SpatialFeatures_fields = MinimapFeatures_fields ++ ["unit_type"]
  /\ (forall field, In field SpatialFeatures_fields
                    <-> In field MinimapFeatures_fields \/ field = "unit_type")
  /\ ~ In "unit_type" MinimapFeatures_fields
  /\ exists t, SPATIAL_FEATURES lib = Ok t
               /\ map name (to_list t) = SpatialFeatures_fields
               /\ map index (to_list t) = seq 0 8
               /\ py_len t = 8
               /\ py_len t = Z.of_nat (length MinimapFeatures_fields) + 1.
Proof.
  intros Hunits.
  split; [reflexivity|]. split; [reflexivity|]. split; [reflexivity|].
  split.
  { intros field. change SpatialFeatures_fields with (MinimapFeatures_fields ++ ["unit_type"]).
    rewrite in_app_iff. cbn [In]. intuition auto. }
  split.
  { cbn. intros H. repeat (destruct H as [H|H]; [discriminate H|]). exact H. }
  unfold SPATIAL_FEATURES.
  destruct (py_max_nonempty _ Hunits) as [v ->]. cbn [bind_result].
  eexists. split; [vm_compute; reflexivity|].
  repeat split.
Qed.

End SpatialFeaturesConstant.

(** ** CustomFeatures *)

Section CustomFeaturesProperties.

Context {Palette ndarray Layer Observation FeaturesBase : Type}.
Variable lib : Toolkit Palette ndarray Layer Observation FeaturesBase.

Abbreviation Self := (CustomFeatures (FeaturesBase := FeaturesBase)).

(** The toolkit calls on the layers of an observation all return. *)
Definition renders (spatial : SpatialFeatures Palette) (obs : Observation)
    (dims : Dimensions) : Prop :=
  returns (render_layers lib (SCREEN_FEATURES lib) obs (screen dims) ScreenFeatures) = true
  /\ returns (render_layers lib (MINIMAP_FEATURES lib) obs (minimap dims) MinimapFeatures) = true
  /\ returns (render_layers lib (to_list spatial) obs (minimap dims) SpatialFeaturesNames) = true.

(** With [rgb_dimensions] set, [transform_obs] never returns, and what it
    raises is [NotImplementedError] as soon as the layers render. *)
Lemma transform_obs_rgb (spatial : SpatialFeatures Palette) (self : Self)
    (obs : Observation) (d : Dimensions) :
  rgb_dimensions (_agent_interface_format lib self) = Some d ->
  returns (transform_obs lib spatial self obs) = false
  /\ ((forall dims, feature_dimensions (_agent_interface_format lib self) = Some dims ->
                    renders spatial obs dims) ->
      transform_obs lib spatial self obs = Raise NotImplementedError).
Proof.
  intros Hrgb. unfold transform_obs. rewrite Hrgb. cbn [truthy].
  destruct (feature_dimensions (_agent_interface_format lib self)) as [dims|].
  - split.
    + destruct (render_layers lib (SCREEN_FEATURES lib) _ _ _); [|reflexivity].
      cbn [bind_result].
      destruct (render_layers lib (MINIMAP_FEATURES lib) _ _ _); [|reflexivity].
      cbn [bind_result].
      destruct (render_layers lib (to_list spatial) _ _ _); reflexivity.
    + intros Hr. destruct (Hr dims eq_refl) as (H1 & H2 & H3).
      destruct (render_layers lib (SCREEN_FEATURES lib) _ _ _); [|discriminate].
      cbn [bind_result].
      destruct (render_layers lib (MINIMAP_FEATURES lib) _ _ _); [|discriminate].
      cbn [bind_result].
      destruct (render_layers lib (to_list spatial) _ _ _); [|discriminate].
      reflexivity.
  - split; [reflexivity | intros _; reflexivity].
Qed.

(** With [rgb_dimensions] set, an exception of [transform_obs] other than
    [NotImplementedError] is that of a rendering of the layers. *)
Lemma transform_obs_rgb_exception (spatial : SpatialFeatures Palette) (self : Self)
    (obs : Observation) (d : Dimensions) (e : exn) :
  rgb_dimensions (_agent_interface_format lib self) = Some d ->
  transform_obs lib spatial self obs = Raise e ->
  e = NotImplementedError
  \/ exists dims,
       feature_dimensions (_agent_interface_format lib self) = Some dims
       /\ (render_layers lib (SCREEN_FEATURES lib) obs (screen dims) ScreenFeatures
           = Raise e
           \/ render_layers lib (MINIMAP_FEATURES lib) obs (minimap dims) MinimapFeatures
              = Raise e
           \/ render_layers lib (to_list spatial) obs (minimap dims) SpatialFeaturesNames
              = Raise e).
Proof.
  intros Hrgb. unfold transform_obs. rewrite Hrgb. cbn [truthy].
  destruct (feature_dimensions (_agent_interface_format lib self)) as [dims|].
  - destruct (render_layers lib (SCREEN_FEATURES lib) _ _ _) as [a1|e1] eqn:H1.
    2: { cbn [bind_result]. intros H. injection H as <-. right. eauto. }
    cbn [bind_result].
    destruct (render_layers lib (MINIMAP_FEATURES lib) _ _ _) as [a2|e2] eqn:H2.
    2: { cbn [bind_result]. intros H. injection H as <-. right. eauto. }
    cbn [bind_result].
    destruct (render_layers lib (to_list spatial) _ _ _) as [a3|e3] eqn:H3.
    2: { cbn [bind_result]. intros H. injection H as <-. right. eauto 6. }
    cbn [bind_result]. intros H. injection H as <-. left. reflexivity.
  - cbn [bind_result]. intros H. injection H as <-. left. reflexivity.
Qed.

(** C3 (amended): in the unsupported RGB configurations no object and no
    observation is returned, and the exception is [NotImplementedError]
    unless a call of the toolkit that runs before the check has raised.
    [CustomFeatures.__init__] raises [NotImplementedError] when the base class
    has set the object up and the interface format has [rgb_dimensions], and
    passes an exception of the base class on; [observation_spec] raises
    [NotImplementedError] whenever [rgb_dimensions] is set; [transform_obs]
    with [rgb_dimensions] set never returns: it raises [NotImplementedError]
    once the toolkit has rendered the layers, and otherwise the exception of
    the rendering; [custom_features_from_game_info] with the [render] field
    never returns: it raises [NotImplementedError] once the toolkit has built
    the feature dimensions, and otherwise the exception of
    [features.Dimensions]. *)
Theorem rgb_configurations_not_implemented :
  (forall aif map_size self d,
     Features__init__ lib aif map_size = Ok self ->
     rgb_dimensions (_agent_interface_format lib self) = Some d ->
     CustomFeatures__init__ lib aif map_size = Raise NotImplementedError)
  /\ (forall spatial (self : Self) d,
        rgb_dimensions (_agent_interface_format lib self) = Some d ->
        observation_spec lib spatial self = Raise NotImplementedError)
  /\ (forall spatial (self : Self) obs d,
        rgb_dimensions (_agent_interface_format lib self) = Some d ->
        (forall dims, feature_dimensions (_agent_interface_format lib self) = Some dims ->
                      renders spatial obs dims) ->
        transform_obs lib spatial self obs = Raise NotImplementedError)
  /\ (forall game_info units raw_units space hide counts camera_position r,
        render (options game_info) = Some r ->
        (forall fl, feature_layer (options game_info) = Some fl ->
           returns (Dimensions_new lib
                      (x (resolution fl), y (resolution fl))
                      (x (minimap_resolution fl), y (minimap_resolution fl))) = true) ->
        custom_features_from_game_info lib game_info units raw_units space hide
          counts camera_position = Raise NotImplementedError)
  /\ (forall aif map_size e,
        Features__init__ lib aif map_size = Raise e ->
        CustomFeatures__init__ lib aif map_size = Raise e)
  /\ (forall spatial (self : Self) obs d,
        rgb_dimensions (_agent_interface_format lib self) = Some d ->
        returns (transform_obs lib spatial self obs) = false
        /\ forall e,
             transform_obs lib spatial self obs = Raise e ->
             e = NotImplementedError
             \/ exists dims,
                  feature_dimensions (_agent_interface_format lib self) = Some dims
                  /\ (render_layers lib (SCREEN_FEATURES lib) obs (screen dims)
                        ScreenFeatures = Raise e
                      \/ render_layers lib (MINIMAP_FEATURES lib) obs (minimap dims)
                           MinimapFeatures = Raise e
                      \/ render_layers lib (to_list spatial) obs (minimap dims)
                           SpatialFeaturesNames = Raise e))
  /\ (forall game_info units raw_units space hide counts camera_position r,
        render (options game_info) = Some r ->
        returns (custom_features_from_game_info lib game_info units raw_units
                   space hide counts camera_position) = false
        /\ forall fl e,
             feature_layer (options game_info) = Some fl ->
             Dimensions_new lib (x (resolution fl), y (resolution fl))
               (x (minimap_resolution fl), y (minimap_resolution fl)) = Raise e ->
             custom_features_from_game_info lib game_info units raw_units space
               hide counts camera_position = Raise e).
Proof.
  repeat match goal with |- _ /\ _ => split end.
  - intros aif map_size self d Hinit Hrgb. unfold CustomFeatures__init__.
    rewrite Hinit. cbn [bind_result].
    destruct (truthy (feature_dimensions _)); cbn [bind_result];
      rewrite Hrgb; reflexivity.
  - intros spatial self d Hrgb. unfold observation_spec. cbv zeta.
    rewrite Hrgb. reflexivity.
  - intros spatial self obs d Hrgb Hr.
    exact (proj2 (transform_obs_rgb spatial self obs d Hrgb) Hr).
  - intros game_info units raw_units space hide counts camera_position r Hrender Hdims.
    unfold custom_features_from_game_info. rewrite Hrender.
    destruct (feature_layer (options game_info)) as [fl|].
    + specialize (Hdims fl eq_refl).
      destruct (Dimensions_new lib _ _); [reflexivity | discriminate].
    + reflexivity.
  - intros aif map_size e Hinit. unfold CustomFeatures__init__.
    rewrite Hinit. reflexivity.
  - intros spatial self obs d Hrgb. split.
    + exact (proj1 (transform_obs_rgb spatial self obs d Hrgb)).
    + intros e. apply (transform_obs_rgb_exception spatial self obs d e Hrgb).
  - intros game_info units raw_units space hide counts camera_position r Hrender.
    unfold custom_features_from_game_info. rewrite Hrender. split.
    + destruct (feature_layer (options game_info)) as [fl|]; [|reflexivity].
      destruct (Dimensions_new lib _ _); reflexivity.
    + intros fl e Hfl Hd. rewrite Hfl, Hd. reflexivity.
Qed.

(** The keys that [transform_obs] fills with [None]. *)
Definition placeholder_keys : list string :=
  ["last_actions"; "action_result"; "alerts"; "game_loop";
   "score_cumulative"; "score_by_category"; "score_by_vital"; "player"].

(** C4: a dictionary that [transform_obs] returns maps each of the keys
    [last_actions], [action_result], [alerts], [game_loop],
    [score_cumulative], [score_by_category], [score_by_vital] and [player]
    to [None]. *)
Theorem transform_obs_placeholders (spatial : SpatialFeatures Palette) (self : Self)
    (obs : Observation) (out : gmap string (value ndarray)) :
  transform_obs lib spatial self obs = Ok out ->
  out !! "last_actions" = Some VNone
  /\ out !! "action_result" = Some VNone
  /\ out !! "alerts" = Some VNone
  /\ out !! "game_loop" = Some VNone
  /\ out !! "score_cumulative" = Some VNone
  /\ out !! "score_by_category" = Some VNone
  /\ out !! "score_by_vital" = Some VNone
  /\ out !! "player" = Some VNone
  /\ Forall (fun key => out !! key = Some VNone) placeholder_keys.
Proof.
  unfold transform_obs. cbv zeta. intros H.
  match type of H with bind_result ?m _ = _ => destruct m as [out0|e] end;
    [|discriminate].
  cbn [bind_result] in H.
  destruct (truthy (rgb_dimensions (_agent_interface_format lib self)));
    [discriminate|].
  injection H as <-.
  assert (Hkeys : Forall (fun key =>
            <["player" := VNone]> (<["score_by_vital" := VNone]>
              (<["score_by_category" := VNone]> (<["score_cumulative" := VNone]>
                (<["game_loop" := VNone]> (<["alerts" := VNone]>
                  (<["action_result" := VNone]> (<["last_actions" := VNone]> out0)))))))
              !! key = Some (@VNone ndarray)) placeholder_keys).
  { unfold placeholder_keys.
    repeat (apply Forall_cons; split;
            [repeat (rewrite lookup_insert_ne by discriminate);
             apply lookup_insert_eq|]).
    apply Forall_nil. trivial. }
  pose proof Hkeys as Hall.
  unfold placeholder_keys in Hkeys.
  repeat (apply Forall_cons in Hkeys as [? Hkeys]).
  repeat match goal with |- _ /\ _ => split end; assumption.
Qed.

End CustomFeaturesProperties.

(** ** A toolkit to run the module on *)

(** Palettes are numbers, arrays are lists of layers, layers and
    observations are numbers; the base class keeps the interface format it is
    given and rejects a missing one. *)
Definition plain_feature (i : nat) (n set : string) (s : Z) : Feature Z :=
  {| index := i; name := n; layer_set := set; full_name := set +:+ " " +:+ n;
     scale := s; type_ := CATEGORICAL; palette := s; clip := false |}.

Definition plain : Toolkit Z (list Z) Z Z AgentInterfaceFormat :=
  {| colors_winter := fun s => s;
     colors_VISIBILITY_PALETTE := 1;
     colors_CREEP_PALETTE := 2;
     colors_CAMERA_PALETTE := 3;
     colors_PLAYER_ABSOLUTE_PALETTE := 4;
     colors_PLAYER_RELATIVE_PALETTE := 5;
     colors_unit_type := fun s => s + 100;
     UNIT_TYPES := [18; 48; 1961];
     SCREEN_FEATURES := [plain_feature 0 "height_map" "renders" 256;
                         plain_feature 1 "visibility_map" "renders" 4];
     MINIMAP_FEATURES := [plain_feature 0 "height_map" "minimap_renders" 256];
     len_UnitLayer := 7;
     len_Player := 11;
     len_ScoreCumulative := 13;
     len_ScoreByCategory := 11;
     len_ScoreCategories := 5;
     len_ScoreByVital := 3;
     len_ScoreVitals := 3;
     len_FeatureUnit := 29;
     len_UnitCounts := 2;
     Features__init__ := fun aif _ =>
       match aif with
       | Some a => Ok a
       | None => Raise (ValueError "Please specify agent_interface_format")
       end;
     base_agent_interface_format := fun a => a;
     Dimensions_new := fun s m =>
       Ok {| screen := {| x := fst s; y := snd s |};
             minimap := {| x := fst m; y := snd m |} |};
     AgentInterfaceFormat_new := fun a => Ok a;
     np_empty := fun _ => [];
     np_array_zero := [0];
     np_zeros := fun _ _ => 0;
     astype_int32 := fun l => l;
     Feature_unpack := fun f obs => Ok (if obs <? 0 then None else Some (obs + scale f));
     np_stack := fun layers => Ok layers;
     NamedNumpyArray := fun a _ => Ok a |}.

Definition square (n : Z) : Dimensions :=
  {| screen := {| x := n; y := n |}; minimap := {| x := n; y := n |} |}.

Definition interface_format (fd rgb : option Dimensions) : AgentInterfaceFormat :=
  {| feature_dimensions := fd; rgb_dimensions := rgb;
     use_feature_units := false; use_raw_units := false;
     use_unit_counts := false; use_camera_position := false;
     camera_width_world_units := 24; action_space := PyBool false;
     hide_specific_actions := true |}.

Definition plain_spatial : SpatialFeatures Z :=
  {| height_map := built 0 "height_map" (256, SCALAR, Table 256);
     visibility_map := built 1 "visibility_map" (4, CATEGORICAL, Table 1);
     creep := built 2 "creep" (2, CATEGORICAL, Table 2);
     camera := built 3 "camera" (2, CATEGORICAL, Table 3);
     player_id := built 4 "player_id" (17, CATEGORICAL, Table 4);
     player_relative := built 5 "player_relative" (5, CATEGORICAL, Table 5);
     selected := built 6 "selected" (2, CATEGORICAL, Table 2);
     unit_type := built 7 "unit_type" (1962, CATEGORICAL, Table 2062) |}.

Example SPATIAL_FEATURES_plain : SPATIAL_FEATURES plain = Ok plain_spatial.
Proof. vm_compute. reflexivity. Qed.

Lemma SPATIAL_FEATURES_mirrors_minimap_witness :
  UNIT_TYPES plain <> []
  /\ exists t, SPATIAL_FEATURES plain = Ok t
               /\ map name (to_list t) = SpatialFeatures_fields
               /\ py_len t = Z.of_nat (length MinimapFeatures_fields) + 1.
Proof.
  assert (H : UNIT_TYPES plain <> []) by discriminate.
  split; [exact H|].
  destruct (SPATIAL_FEATURES_mirrors_minimap plain H)
    as (_ & _ & _ & _ & _ & t & Ht & Hnames & _ & _ & Hlen).
  exists t. auto.
Defined.

Lemma SpatialFeatures_new_invariant_witness :
  SpatialFeatures__new__
    [("height_map", (256, SCALAR, Callable (fun s => s)));
     ("visibility_map", (4, CATEGORICAL, Table 1));
     ("creep", (2, CATEGORICAL, Table 2));
     ("camera", (2, CATEGORICAL, Table 3));
     ("player_id", (17, CATEGORICAL, Table 4));
     ("player_relative", (5, CATEGORICAL, Table 5));
     ("selected", (2, CATEGORICAL, Callable (fun s => s)));
     ("unit_type", (1962, CATEGORICAL, Callable (fun s => s + 100)))]
  = Ok plain_spatial
  /\ SpatialFeatures_fields !! 7%nat = Some "unit_type"
  /\ exists f, getattr plain_spatial "unit_type" = Some f
               /\ index f = 7%nat
               /\ full_name f = "spatial unit_type"
               /\ clip f = false.
Proof.
  assert (H : SpatialFeatures__new__
    [("height_map", (256, SCALAR, Callable (fun s => s)));
     ("visibility_map", (4, CATEGORICAL, Table 1));
     ("creep", (2, CATEGORICAL, Table 2));
     ("camera", (2, CATEGORICAL, Table 3));
     ("player_id", (17, CATEGORICAL, Table 4));
     ("player_relative", (5, CATEGORICAL, Table 5));
     ("selected", (2, CATEGORICAL, Callable (fun s => s)));
     ("unit_type", (1962, CATEGORICAL, Callable (fun s => s + 100)))]
    = Ok plain_spatial) by (vm_compute; reflexivity).
  split; [exact H|]. split; [reflexivity|].
  destruct (SpatialFeatures_new_invariant _ _ H 7%nat "unit_type" eq_refl)
    as (f & s & ty & pal & _ & Hget & _ & Hi & _ & _ & Hfull & _ & _ & _ & Hclip).
  exists f. auto.
Defined.

(** The dictionary that [transform_obs] returns on the toolkit above for
    observation 5 and square feature dimensions. *)
Definition plain_out : gmap string (value (list Z)) :=
  list_to_map
    [("single_select", VArray []); ("multi_select", VArray []);
     ("build_queue", VArray []); ("cargo", VArray []);
     ("cargo_slots_available", VArray [0]);
     ("feature_screen", VArray [261; 9]);
     ("feature_minimap", VArray [261]);
     ("feature_spatial", VArray [261; 9; 7; 7; 22; 10; 7; 1967]);
     ("last_actions", VNone); ("action_result", VNone); ("alerts", VNone);
     ("game_loop", VNone); ("score_cumulative", VNone);
     ("score_by_category", VNone); ("score_by_vital", VNone);
     ("player", VNone)].

Lemma transform_obs_placeholders_witness :
  transform_obs plain plain_spatial (interface_format (Some (square 64)) None) 5
  = Ok plain_out
  /\ plain_out !! "last_actions" = Some VNone
  /\ plain_out !! "player" = Some VNone
  /\ Forall (fun key => plain_out !! key = Some VNone) placeholder_keys.
Proof.
  assert (H : transform_obs plain plain_spatial
                (interface_format (Some (square 64)) None) 5 = Ok plain_out)
    by (vm_compute; reflexivity).
  split; [exact H|].
  destruct (transform_obs_placeholders plain _ _ _ _ H)
    as (H1 & _ & _ & _ & _ & _ & _ & H8 & Hall).
  auto.
Defined.

(** * Further properties of custom_features.py *)

(** ** SpatialFeatures.__new__: which keywords it accepts *)

Section SpatialFeaturesOutcome.

Context {Palette : Type}.

Abbreviation Keywords := (list (string * (Z * FeatureType * palette_arg Palette))).









End SpatialFeaturesOutcome.

(** ** SPATIAL_FEATURES: the scale of unit_type *)

Section UnitTypeScale.

Context {Palette ndarray Layer Observation FeaturesBase : Type}.
Variable lib : Toolkit Palette ndarray Layer Observation FeaturesBase.

Lemma fold_max_spec (xs : list Z) :
  forall v, let m := fold_left Z.max xs v in
  (m = v \/ In m xs) /\ v <= m /\ (forall u, In u xs -> u <= m).
Proof.
  induction xs as [|x xs IH]; intros v; cbn [fold_left].
  - repeat split; [left; reflexivity | lia | intros u []].
  - destruct (IH (Z.max v x)) as (Hin & Hle & Hall). cbv zeta in *.
    repeat split.
    + destruct Hin as [Hm|Hm]; [|right; right; exact Hm].
      rewrite Hm. destruct (Z.max_spec v x) as [[_ ->]|[_ ->]];
        [right; left; reflexivity | left; reflexivity].
    + lia.
    + intros u [<-|Hu]; [lia | apply Hall, Hu].
Qed.

Lemma py_max_spec (xs : list Z) (v : Z) :
  py_max xs = Ok v -> In v xs /\ forall u, In u xs -> u <= v.
Proof.
  destruct xs as [|x xs]; [discriminate|]. cbn [py_max]. intros H. injection H as <-.
  destruct (fold_max_spec xs x) as (Hin & Hle & Hall). cbv zeta in *.
  split.
  - destruct Hin as [->|Hin]; [left; reflexivity | right; exact Hin].
  - intros u [<-|Hu]; [exact Hle | apply Hall, Hu].
Qed.

(** X14: the scale of the [unit_type] layer of [SPATIAL_FEATURES] is one
    more than the largest id of [static_data.UNIT_TYPES], so every known unit
    type id is below the scale; its palette is [colors.unit_type] of that
    scale; the seven other layers have the scales 256, 4, 2, 2, 17, 5, 2.
    With an empty table of unit types the module fails at import with the
    [ValueError] of [max]. *)
Theorem SPATIAL_FEATURES_unit_type_scale :
  (UNIT_TYPES lib = [] ->
   SPATIAL_FEATURES lib = Raise (ValueError "max() arg is an empty sequence"))
  /\ (forall t, SPATIAL_FEATURES lib = Ok t ->
        In (scale (unit_type t) - 1) (UNIT_TYPES lib)
        /\ (forall u, In u (UNIT_TYPES lib) -> u < scale (unit_type t))
        /\ palette (unit_type t) = colors_unit_type lib (scale (unit_type t))
        /\ type_ (unit_type t) = CATEGORICAL
        /\ map scale (to_list t) = [256; 4; 2; 2; 17; 5; 2; scale (unit_type t)]
        /\ palette (height_map t) = colors_winter lib 256
        /\ palette (selected t) = colors_winter lib 2).
Proof.
  unfold SPATIAL_FEATURES. split.
  - intros ->. reflexivity.
  - intros t H.
    destruct (py_max (UNIT_TYPES lib)) as [v|e] eqn:Hmax; [|discriminate].
    cbn [bind_result] in H.
    destruct (py_max_spec _ _ Hmax) as [Hin Hall].
    remember (v + 1) as s eqn:Hs.
    vm_compute in H. injection H as <-. cbn.
    assert (Hv : s - 1 = v) by lia.
    rewrite Hv. repeat split; auto.
    intros u Hu. apply Hall in Hu. lia.
Qed.

End UnitTypeScale.

(** ** CustomFeatures: construction and observation spec *)

Section CustomFeaturesMore.

Context {Palette ndarray Layer Observation FeaturesBase : Type}.
Variable lib : Toolkit Palette ndarray Layer Observation FeaturesBase.

Abbreviation Self' := (CustomFeatures (FeaturesBase := FeaturesBase)).

(** X15: [CustomFeatures.__init__] returns exactly when the base class
    sets the object up and the interface format has no [rgb_dimensions], and
    it then returns the object of the base class untouched; an exception of
    the base class passes through unchanged. *)
Theorem CustomFeatures_init_outcome (aif : option AgentInterfaceFormat)
    (map_size : option Point) :
  (forall self, CustomFeatures__init__ lib aif map_size = Ok self
                <-> Features__init__ lib aif map_size = Ok self
                    /\ rgb_dimensions (_agent_interface_format lib self) = None)
  /\ (forall e, Features__init__ lib aif map_size = Raise e ->
                CustomFeatures__init__ lib aif map_size = Raise e)
  /\ (forall e, CustomFeatures__init__ lib aif map_size = Raise e ->
                Features__init__ lib aif map_size = Raise e
                \/ e = NotImplementedError).
Proof.
  unfold CustomFeatures__init__.
  destruct (Features__init__ lib aif map_size) as [base|e0]; cbn [bind_result].
  - assert (Hpass : (if truthy (feature_dimensions (_agent_interface_format lib base))
                     then Ok tt else Ok tt) = Ok tt)
      by (destruct (truthy _); reflexivity).
    rewrite Hpass. cbn [bind_result].
    destruct (rgb_dimensions (_agent_interface_format lib base)) as [d|] eqn:Hrgb;
      cbn [truthy].
    + split; [|split].
      * intros self. split; [discriminate|]. intros [H Hn]. injection H as <-.
        congruence.
      * discriminate.
      * intros e H. injection H as <-. right. reflexivity.
    + split; [|split].
      * intros self. split.
        -- intros H. injection H as <-. auto.
        -- intros [H _]. exact H.
      * discriminate.
      * discriminate.
  - split; [|split].
    + intros self. split; [discriminate | intros [H _]; discriminate].
    + intros e H. exact H.
    + intros e H. left. exact H.
Qed.

End CustomFeaturesMore.

Section ObservationSpec.

Context {Palette ndarray Layer Observation FeaturesBase : Type}.
Variable lib : Toolkit Palette ndarray Layer Observation FeaturesBase.

Abbreviation Self'' := (CustomFeatures (FeaturesBase := FeaturesBase)).

(** The keys of the dictionary literal of [observation_spec]. *)
Definition base_spec_keys : list string :=
  ["action_result"; "alerts"; "available_actions"; "build_queue"; "cargo";
   "cargo_slots_available"; "control_groups"; "game_loop"; "last_actions";
   "multi_select"; "player"; "score_cumulative"; "score_by_category";
   "score_by_vital"; "single_select"].

(** X16: without [rgb_dimensions], [observation_spec] returns a spec that
    has the fifteen fixed keys; the three [feature_*] keys exactly when the
    interface has [feature_dimensions], [feature_spatial] being 8 layers of
    the minimap's height and width; and each of [feature_units],
    [raw_units], [unit_counts] and [camera_position] exactly when its flag is
    set. *)
Theorem observation_spec_entries (spatial : SpatialFeatures Palette) (self : Self'') :
  rgb_dimensions (_agent_interface_format lib self) = None ->
  exists spec,
    observation_spec lib spatial self = Ok spec
    /\ Forall (fun key => is_Some (spec !! key)) base_spec_keys
    /\ spec !! "control_groups" = Some [10; 2]
    /\ spec !! "feature_screen"
       = (fun dims => [Z.of_nat (length (SCREEN_FEATURES lib));
                       y (screen dims); x (screen dims)])
         <$> feature_dimensions (_agent_interface_format lib self)
    /\ spec !! "feature_minimap"
       = (fun dims => [Z.of_nat (length (MINIMAP_FEATURES lib));
                       y (minimap dims); x (minimap dims)])
         <$> feature_dimensions (_agent_interface_format lib self)
    /\ spec !! "feature_spatial"
       = (fun dims => [8; y (minimap dims); x (minimap dims)])
         <$> feature_dimensions (_agent_interface_format lib self)
    /\ spec !! "feature_units"
       = (if use_feature_units (_agent_interface_format lib self)
          then Some [0; len_FeatureUnit lib] else None)
    /\ spec !! "raw_units"
       = (if use_raw_units (_agent_interface_format lib self)
          then Some [0; len_FeatureUnit lib] else None)
    /\ spec !! "unit_counts"
       = (if use_unit_counts (_agent_interface_format lib self)
          then Some [0; len_UnitCounts lib] else None)
    /\ spec !! "camera_position"
       = (if use_camera_position (_agent_interface_format lib self)
          then Some [2] else None).
Proof.
  intros Hrgb. unfold observation_spec. cbv zeta. rewrite Hrgb. cbn [truthy].
  eexists. split; [reflexivity|].
  destruct (feature_dimensions (_agent_interface_format lib self)) as [dims|];
    destruct (use_feature_units (_agent_interface_format lib self));
    destruct (use_raw_units (_agent_interface_format lib self));
    destruct (use_unit_counts (_agent_interface_format lib self));
    destruct (use_camera_position (_agent_interface_format lib self));
    (split; [unfold base_spec_keys;
             repeat (apply Forall_cons; split; [vm_compute; eauto|]);
             apply Forall_nil; trivial|]);
    repeat split; vm_compute; reflexivity.
Qed.

End ObservationSpec.

(** ** CustomFeatures.transform_obs: what it renders and what it leaves out *)

Section TransformObs.

Context {Palette ndarray Layer Observation FeaturesBase : Type}.
Variable lib : Toolkit Palette ndarray Layer Observation FeaturesBase.

Abbreviation Self3 := (CustomFeatures (FeaturesBase := FeaturesBase)).

Lemma map_result_Ok {A B : Type} (body : A -> result B) (xs : list A) (ys : list B) :
  map_result body xs = Ok ys ->
  length ys = length xs
  /\ forall i a, xs !! i = Some a -> exists b, body a = Ok b /\ ys !! i = Some b.
Proof.
  revert ys. induction xs as [|a xs IH]; intros ys H; cbn [map_result] in H.
  - injection H as <-. split; [reflexivity|]. intros i a Hi. discriminate.
  - destruct (body a) as [b|e] eqn:Hb; [|discriminate]. cbn [bind_result] in H.
    destruct (map_result body xs) as [ys'|e]; [|discriminate].
    cbn [bind_result] in H. injection H as <-.
    destruct (IH _ eq_refl) as [Hlen Hall].
    split; [cbn; congruence|].
    intros [|i] a' Hi; cbn in Hi |- *.
    + injection Hi as <-. eauto.
    + apply Hall, Hi.
Qed.

Lemma map_result_first_failure {A B : Type} (body : A -> result B)
    (pre : list A) (a : A) (rest : list A) (e : exn) :
  Forall (fun a' => returns (body a') = true) pre ->
  body a = Raise e ->
  map_result body (pre ++ a :: rest) = Raise e.
Proof.
  intros Hpre Ha. induction Hpre as [|a' pre Ha' _ IH]; cbn [app map_result].
  - rewrite Ha. reflexivity.
  - destruct (body a'); [|discriminate]. cbn [bind_result]. rewrite IH. reflexivity.
Qed.

(** X17: an array that [render_layers] returns is the named stack of one
    layer per feature, in the order of the features: the unpacked layer cast
    to int32, or zeros of [size.y] rows and [size.x] columns for a feature
    that the observation does not carry. *)
Theorem render_layers_stacks_each_feature (feats : list (Feature Palette))
    (obs : Observation) (size : Point) (names : layer_names) (a : ndarray) :
  render_layers lib feats obs size names = Ok a ->
  exists layers stacked,
    length layers = length feats
    /\ (forall i f, feats !! i = Some f ->
          (Feature_unpack lib f obs = Ok None
           /\ layers !! i = Some (np_zeros lib (y size) (x size)))
          \/ (exists l, Feature_unpack lib f obs = Ok (Some l)
                        /\ layers !! i = Some (astype_int32 lib l)))
    /\ np_stack lib layers = Ok stacked
    /\ NamedNumpyArray lib stacked names = Ok a.
Proof.
  unfold render_layers. intros H.
  destruct (map_result _ feats) as [layers|e] eqn:Hl; [|discriminate].
  cbn [bind_result] in H.
  destruct (np_stack lib layers) as [stacked|e] eqn:Hs; [|discriminate].
  cbn [bind_result] in H.
  exists layers, stacked.
  destruct (map_result_Ok _ _ _ Hl) as [Hlen Hall].
  split; [exact Hlen|]. split; [|auto].
  intros i f Hi. destruct (Hall i f Hi) as (b & Hb & Hi').
  destruct (Feature_unpack lib f obs) as [[l|]|e]; cbn in Hb; try discriminate;
    injection Hb as <-.
  - right. eauto.
  - left. auto.
Qed.

(** X18: a dictionary that [transform_obs] returns has the three
    [feature_*] entries exactly when the interface has [feature_dimensions];
    [feature_screen] is rendered from the toolkit's screen features at the
    screen size, [feature_minimap] from its minimap features and
    [feature_spatial] from the eight features of [SPATIAL_FEATURES], both at
    the minimap size; and the five unit entries are the empty array and the
    single zero. *)
Theorem transform_obs_feature_entries (spatial : SpatialFeatures Palette)
    (self : Self3) (obs : Observation) (out : gmap string (value ndarray)) :
  transform_obs lib spatial self obs = Ok out ->
  match feature_dimensions (_agent_interface_format lib self) with
  | Some dims =>
      exists a_screen a_minimap a_spatial,
        render_layers lib (SCREEN_FEATURES lib) obs (screen dims) ScreenFeatures
        = Ok a_screen
        /\ render_layers lib (MINIMAP_FEATURES lib) obs (minimap dims) MinimapFeatures
           = Ok a_minimap
        /\ render_layers lib (to_list spatial) obs (minimap dims) SpatialFeaturesNames
           = Ok a_spatial
        /\ out !! "feature_screen" = Some (VArray a_screen)
        /\ out !! "feature_minimap" = Some (VArray a_minimap)
        /\ out !! "feature_spatial" = Some (VArray a_spatial)
  | None =>
      out !! "feature_screen" = None
      /\ out !! "feature_minimap" = None
      /\ out !! "feature_spatial" = None
  end
  /\ out !! "single_select" = Some (VArray (np_empty lib (len_UnitLayer lib)))
  /\ out !! "multi_select" = Some (VArray (np_empty lib (len_UnitLayer lib)))
  /\ out !! "build_queue" = Some (VArray (np_empty lib (len_UnitLayer lib)))
  /\ out !! "cargo" = Some (VArray (np_empty lib (len_UnitLayer lib)))
  /\ out !! "cargo_slots_available" = Some (VArray (np_array_zero lib))
  /\ rgb_dimensions (_agent_interface_format lib self) = None.
Proof.
  unfold transform_obs. cbv zeta. intros H.
  destruct (feature_dimensions (_agent_interface_format lib self)) as [dims|].
  - destruct (render_layers lib (SCREEN_FEATURES lib) _ _ _) as [a1|e]; [|discriminate].
    cbn [bind_result] in H.
    destruct (render_layers lib (MINIMAP_FEATURES lib) _ _ _) as [a2|e]; [|discriminate].
    cbn [bind_result] in H.
    destruct (render_layers lib (to_list spatial) _ _ _) as [a3|e]; [|discriminate].
    cbn [bind_result] in H.
    destruct (rgb_dimensions (_agent_interface_format lib self)); [discriminate|].
    cbn [truthy] in H. injection H as <-.
    split; [exists a1, a2, a3|]; repeat split; vm_compute; reflexivity.
  - cbn [bind_result] in H.
    destruct (rgb_dimensions (_agent_interface_format lib self)); [discriminate|].
    cbn [truthy] in H. injection H as <-.
    repeat split; vm_compute; reflexivity.
Qed.

(** X19: an exception of the toolkit while a layer is unpacked leaves
    [transform_obs] as it is: the first screen feature whose [unpack] raises
    decides, whether or not [rgb_dimensions] is set. *)
Theorem transform_obs_unpack_exception (spatial : SpatialFeatures Palette)
    (self : Self3) (obs : Observation) (dims : Dimensions)
    (pre : list (Feature Palette)) (f : Feature Palette)
    (rest : list (Feature Palette)) (e : exn) :
  feature_dimensions (_agent_interface_format lib self) = Some dims ->
  SCREEN_FEATURES lib = pre ++ f :: rest ->
  Forall (fun f' => returns (Feature_unpack lib f' obs) = true) pre ->
  Feature_unpack lib f obs = Raise e ->
  transform_obs lib spatial self obs = Raise e.
Proof.
  intros Hfd Hscreen Hpre Hf. unfold transform_obs. cbv zeta. rewrite Hfd.
  unfold render_layers at 1. rewrite Hscreen.
  rewrite (map_result_first_failure _ pre f rest e).
  - reflexivity.
  - eapply Forall_impl; [exact Hpre|]. intros f' Hf'. cbn beta in *.
    destruct (Feature_unpack lib f' obs); [reflexivity | discriminate].
  - rewrite Hf. reflexivity.
Qed.

End TransformObs.

(** ** The observation and its spec *)

#[local] Set Warnings "-clear-no-such-hyp".

Section SpecAndObservation.

Context {Palette ndarray Layer Observation FeaturesBase : Type}.
Variable lib : Toolkit Palette ndarray Layer Observation FeaturesBase.

Abbreviation Self4 := (CustomFeatures (FeaturesBase := FeaturesBase)).

(** The keys that [transform_obs] fills whatever the interface. *)
Definition filled_keys : list string :=
  ["single_select"; "multi_select"; "build_queue"; "cargo";
   "cargo_slots_available"; "last_actions"; "action_result"; "alerts";
   "game_loop"; "score_cumulative"; "score_by_category"; "score_by_vital";
   "player"].

Definition feature_keys : list string :=
  ["feature_screen"; "feature_minimap"; "feature_spatial"].

Lemma transform_obs_dom (spatial : SpatialFeatures Palette) (self : Self4)
    (obs : Observation) (out : gmap string (value ndarray)) :
  transform_obs lib spatial self obs = Ok out ->
  dom out
  = list_to_set filled_keys
    ∪ (if truthy (feature_dimensions (_agent_interface_format lib self))
       then list_to_set feature_keys else ∅).
Proof.
  unfold transform_obs. cbv zeta. intros H.
  destruct (feature_dimensions (_agent_interface_format lib self)) as [dims|].
  - destruct (render_layers lib (SCREEN_FEATURES lib) _ _ _) as [a1|e]; [|discriminate].
    cbn [bind_result] in H.
    destruct (render_layers lib (MINIMAP_FEATURES lib) _ _ _) as [a2|e]; [|discriminate].
    cbn [bind_result] in H.
    destruct (render_layers lib (to_list spatial) _ _ _) as [a3|e]; [|discriminate].
    cbn [bind_result] in H.
    destruct (rgb_dimensions (_agent_interface_format lib self)); [discriminate|].
    cbn [truthy] in H. injection H as <-.
    rewrite ?dom_insert_L, ?dom_list_to_map_L, ?dom_empty_L. cbn. set_solver.
  - cbn [bind_result] in H.
    destruct (rgb_dimensions (_agent_interface_format lib self)); [discriminate|].
    cbn [truthy] in H. injection H as <-.
    rewrite ?dom_insert_L, ?dom_list_to_map_L, ?dom_empty_L. cbn. set_solver.
Qed.

Lemma observation_spec_dom (spatial : SpatialFeatures Palette) (self : Self4)
    (spec : gmap string shape) :
  observation_spec lib spatial self = Ok spec ->
  list_to_set base_spec_keys
  ∪ (if truthy (feature_dimensions (_agent_interface_format lib self))
     then list_to_set feature_keys else ∅)
  ⊆ dom spec.
Proof.
  unfold observation_spec. cbv zeta. intros H.
  destruct (rgb_dimensions (_agent_interface_format lib self)); [discriminate|].
  cbn [truthy] in H. injection H as <-.
  destruct (feature_dimensions (_agent_interface_format lib self)) as [dims|];
    destruct (use_feature_units (_agent_interface_format lib self));
    destruct (use_raw_units (_agent_interface_format lib self));
    destruct (use_unit_counts (_agent_interface_format lib self));
    destruct (use_camera_position (_agent_interface_format lib self));
    rewrite ?dom_insert_L, ?dom_list_to_map_L, ?dom_empty_L; cbn; set_solver.
Qed.

(** X20: every key of an observation that [transform_obs] returns is
    declared by [observation_spec]; the spec declares in addition
    [available_actions] and [control_groups], which no observation of
    [transform_obs] ever has; and the keys of the observation are the
    thirteen fixed ones and, with [feature_dimensions], the three
    [feature_*] keys. *)
Theorem observation_keys_within_spec (spatial : SpatialFeatures Palette)
    (self : Self4) (obs : Observation) (out : gmap string (value ndarray))
    (spec : gmap string shape) :
  transform_obs lib spatial self obs = Ok out ->
  observation_spec lib spatial self = Ok spec ->
  dom out ⊆ dom spec
  /\ is_Some (spec !! "available_actions") /\ out !! "available_actions" = None
  /\ is_Some (spec !! "control_groups") /\ out !! "control_groups" = None
  /\ (forall key, is_Some (out !! key)
                  <-> In key filled_keys
                      \/ (is_Some (feature_dimensions (_agent_interface_format lib self))
                          /\ In key feature_keys)).
Proof.
  intros Hout Hspec.
  pose proof (transform_obs_dom _ _ _ _ Hout) as Hd.
  pose proof (observation_spec_dom _ _ _ Hspec) as Hs.
  assert (Hbase : list_to_set filled_keys ⊆ (list_to_set base_spec_keys : gset string))
    by (cbn; set_solver).
  split; [rewrite Hd; set_solver|].
  split; [apply elem_of_dom; apply Hs; cbn; set_solver|].
  split.
  { apply not_elem_of_dom. rewrite Hd.
    destruct (truthy _); cbn; set_solver. }
  split; [apply elem_of_dom; apply Hs; cbn; set_solver|].
  split.
  { apply not_elem_of_dom. rewrite Hd.
    destruct (truthy _); cbn; set_solver. }
  intros key. rewrite <- elem_of_dom, Hd, elem_of_union, elem_of_list_to_set,
    list_elem_of_In.
  destruct (feature_dimensions (_agent_interface_format lib self)) as [dims|];
    cbn [truthy].
  - rewrite elem_of_list_to_set, list_elem_of_In.
    split; [intros [H|H]; auto; right; split; eauto | intros [H|[_ H]]; auto].
  - split; [intros [H|H]; [auto | set_solver] | intros [H|[[? Hx] _]]; [auto | discriminate]].
Qed.

End SpecAndObservation.

(** ** custom_features_from_game_info *)

Section FromGameInfo.

Context {Palette ndarray Layer Observation FeaturesBase : Type}.
Variable lib : Toolkit Palette ndarray Layer Observation FeaturesBase.

(** The interface format that [custom_features_from_game_info] asks the
    toolkit for, given the feature dimensions it has built. *)
Definition requested_format (game_info : ResponseGameInfo)
    (dims : option Dimensions) (units raw_units : bool) (space : pyval)
    (hide counts camera_position : bool) : AgentInterfaceFormat :=
  {| feature_dimensions := dims;
     rgb_dimensions := None;
     use_feature_units := units;
     use_raw_units := raw_units;
     use_unit_counts := counts;
     use_camera_position := camera_position;
     camera_width_world_units :=
       match feature_layer (options game_info) with
       | Some fl => width fl
       | None => 0
       end;
     action_space := space;
     hide_specific_actions := hide |}.

(** X21: [custom_features_from_game_info] builds the feature dimensions
    first: an exception of [features.Dimensions] leaves the function as it
    is, also when the options have [render].  An object that it returns comes
    from game options without [render]: the base class has set it up, with
    the map size of the game, for an interface format that was requested
    without [rgb_dimensions], with feature dimensions made of the resolution
    and the minimap resolution exactly when the options have [feature_layer],
    and with the camera width of that layer, or 0 without one; and the
    object's own format has no [rgb_dimensions]. *)
Theorem custom_features_from_game_info_outcome (game_info : ResponseGameInfo)
    (units raw_units : bool) (space : pyval) (hide counts camera_position : bool) :
  (forall fl e,
     feature_layer (options game_info) = Some fl ->
     Dimensions_new lib (x (resolution fl), y (resolution fl))
       (x (minimap_resolution fl), y (minimap_resolution fl)) = Raise e ->
     custom_features_from_game_info lib game_info units raw_units space hide
       counts camera_position = Raise e)
  /\ (forall self,
        custom_features_from_game_info lib game_info units raw_units space hide
          counts camera_position = Ok self ->
        render (options game_info) = None
        /\ exists dims aif,
             match feature_layer (options game_info) with
             | Some fl =>
                 exists d,
                   Dimensions_new lib (x (resolution fl), y (resolution fl))
                     (x (minimap_resolution fl), y (minimap_resolution fl)) = Ok d
                   /\ dims = Some d
             | None => dims = None
             end
             /\ AgentInterfaceFormat_new lib
                  (requested_format game_info dims units raw_units space hide
                     counts camera_position) = Ok aif
             /\ Features__init__ lib (Some aif) (Some (start_raw_map_size game_info))
                = Ok self
             /\ rgb_dimensions (_agent_interface_format lib self) = None).
Proof.
  unfold custom_features_from_game_info. split.
  - intros fl e Hfl Hd. rewrite Hfl, Hd. reflexivity.
  - intros self H.
    assert (Hinit : forall aif,
              CustomFeatures__init__ lib (Some aif) (Some (start_raw_map_size game_info))
              = Ok self ->
              Features__init__ lib (Some aif) (Some (start_raw_map_size game_info))
              = Ok self
              /\ rgb_dimensions (_agent_interface_format lib self) = None).
    { intros aif Hc. unfold CustomFeatures__init__ in Hc.
      destruct (Features__init__ lib (Some aif) _) as [base|e]; [|discriminate].
      cbn [bind_result] in Hc.
      destruct (truthy (feature_dimensions _)); cbn [bind_result] in Hc;
        destruct (rgb_dimensions (_agent_interface_format lib base)) eqn:Hrgb;
        cbn [truthy] in Hc; try discriminate; injection Hc as <-; auto. }
    destruct (feature_layer (options game_info)) as [fl|] eqn:Hfl.
    + destruct (Dimensions_new lib _ _) as [d|e] eqn:Hd; [|discriminate].
      cbn [bind_result] in H.
      destruct (render (options game_info)); [discriminate|].
      cbn [bind_result] in H. split; [reflexivity|].
      destruct (AgentInterfaceFormat_new lib _) as [aif|e] eqn:Haif; [|discriminate].
      cbn [bind_result] in H. destruct (Hinit aif H) as [Hb Hrgb].
      exists (Some d), aif. split; [eauto|].
      unfold requested_format. rewrite Hfl. auto.
    + cbn [bind_result] in H.
      destruct (render (options game_info)); [discriminate|].
      cbn [bind_result] in H. split; [reflexivity|].
      destruct (AgentInterfaceFormat_new lib _) as [aif|e] eqn:Haif; [|discriminate].
      cbn [bind_result] in H. destruct (Hinit aif H) as [Hb Hrgb].
      exists None, aif. split; [reflexivity|].
      unfold requested_format. rewrite Hfl. auto.
Qed.

End FromGameInfo.

(** ** The further properties on the plain toolkit *)

(** The plain toolkit with another [unpack]. *)
Definition with_unpack (lib : Toolkit Z (list Z) Z Z AgentInterfaceFormat)
    (unpack : Feature Z -> Z -> result (option Z))
    : Toolkit Z (list Z) Z Z AgentInterfaceFormat :=
  {| colors_winter := colors_winter lib;
     colors_VISIBILITY_PALETTE := colors_VISIBILITY_PALETTE lib;
     colors_CREEP_PALETTE := colors_CREEP_PALETTE lib;
     colors_CAMERA_PALETTE := colors_CAMERA_PALETTE lib;
     colors_PLAYER_ABSOLUTE_PALETTE := colors_PLAYER_ABSOLUTE_PALETTE lib;
     colors_PLAYER_RELATIVE_PALETTE := colors_PLAYER_RELATIVE_PALETTE lib;
     colors_unit_type := colors_unit_type lib;
     UNIT_TYPES := UNIT_TYPES lib;
     SCREEN_FEATURES := SCREEN_FEATURES lib;
     MINIMAP_FEATURES := MINIMAP_FEATURES lib;
     len_UnitLayer := len_UnitLayer lib;
     len_Player := len_Player lib;
     len_ScoreCumulative := len_ScoreCumulative lib;
     len_ScoreByCategory := len_ScoreByCategory lib;
     len_ScoreCategories := len_ScoreCategories lib;
     len_ScoreByVital := len_ScoreByVital lib;
     len_ScoreVitals := len_ScoreVitals lib;
     len_FeatureUnit := len_FeatureUnit lib;
     len_UnitCounts := len_UnitCounts lib;
     Features__init__ := Features__init__ lib;
     base_agent_interface_format := base_agent_interface_format lib;
     Dimensions_new := Dimensions_new lib;
     AgentInterfaceFormat_new := AgentInterfaceFormat_new lib;
     np_empty := np_empty lib;
     np_array_zero := np_array_zero lib;
     np_zeros := np_zeros lib;
     astype_int32 := astype_int32 lib;
     Feature_unpack := unpack;
     np_stack := np_stack lib;
     NamedNumpyArray := NamedNumpyArray lib |}.

(** An [unpack] that does not know the layer [visibility_map]. *)
Definition unpack_without_visibility (f : Feature Z) (obs : Z) : result (option Z) :=
  if String.eqb (name f) "visibility_map"
  then Raise (ValueError "Protocol message has no visibility_map field")
  else Ok None.


Lemma SPATIAL_FEATURES_unit_type_scale_witness :
  scale (unit_type plain_spatial) = 1962
  /\ In (scale (unit_type plain_spatial) - 1) (UNIT_TYPES plain)
  /\ (forall u, In u (UNIT_TYPES plain) -> u < scale (unit_type plain_spatial)).
Proof.
  split; [reflexivity|].
  destruct (proj2 (SPATIAL_FEATURES_unit_type_scale plain) plain_spatial
              SPATIAL_FEATURES_plain) as (Hin & Hall & _).
  auto.
Defined.

Lemma CustomFeatures_init_outcome_witness :
  CustomFeatures__init__ plain (Some (interface_format (Some (square 64)) None)) None
  = Ok (interface_format (Some (square 64)) None)
  /\ CustomFeatures__init__ plain None None
     = Raise (ValueError "Please specify agent_interface_format").
Proof.
  split.
  - apply (CustomFeatures_init_outcome plain
             (Some (interface_format (Some (square 64)) None)) None).
    split; reflexivity.
  - apply (CustomFeatures_init_outcome plain None None). reflexivity.
Defined.

Lemma observation_spec_entries_witness :
  exists spec,
    observation_spec plain plain_spatial (interface_format (Some (square 64)) None)
    = Ok spec
    /\ spec !! "feature_spatial" = Some [8; 64; 64]
    /\ spec !! "feature_units" = None.
Proof.
  destruct (observation_spec_entries plain plain_spatial
              (interface_format (Some (square 64)) None) eq_refl)
    as (spec & Hspec & _ & _ & _ & _ & Hspatial & Hunits & _).
  exists spec. auto.
Defined.

Lemma render_layers_stacks_each_feature_witness :
  exists layers stacked,
    length layers = 2%nat
    /\ np_stack plain layers = Ok stacked
    /\ NamedNumpyArray plain stacked ScreenFeatures = Ok [0; 0].
Proof.
  destruct (render_layers_stacks_each_feature plain (SCREEN_FEATURES plain) (-1)
              {| x := 84; y := 64 |} ScreenFeatures [0; 0] eq_refl)
    as (layers & stacked & Hlen & _ & Hstack & Hnamed).
  exists layers, stacked. auto.
Defined.

Lemma transform_obs_feature_entries_witness :
  plain_out !! "feature_spatial" = Some (VArray [261; 9; 7; 7; 22; 10; 7; 1967])
  /\ exists a_screen a_minimap a_spatial,
       render_layers plain (SCREEN_FEATURES plain) 5 (screen (square 64)) ScreenFeatures
       = Ok a_screen
       /\ render_layers plain (MINIMAP_FEATURES plain) 5 (minimap (square 64))
            MinimapFeatures = Ok a_minimap
       /\ render_layers plain (to_list plain_spatial) 5 (minimap (square 64))
            SpatialFeaturesNames = Ok a_spatial
       /\ plain_out !! "feature_screen" = Some (VArray a_screen)
       /\ plain_out !! "feature_minimap" = Some (VArray a_minimap)
       /\ plain_out !! "feature_spatial" = Some (VArray a_spatial).
Proof.
  split; [reflexivity|].
  assert (H : transform_obs plain plain_spatial
                (interface_format (Some (square 64)) None) 5 = Ok plain_out)
    by (vm_compute; reflexivity).
  exact (proj1 (transform_obs_feature_entries plain plain_spatial
                  (interface_format (Some (square 64)) None) 5 plain_out H)).
Defined.

Lemma transform_obs_unpack_exception_witness :
  transform_obs (with_unpack plain unpack_without_visibility) plain_spatial
    (interface_format (Some (square 64)) (Some (square 32))) 5
  = Raise (ValueError "Protocol message has no visibility_map field").
Proof.
  apply (transform_obs_unpack_exception
           (with_unpack plain unpack_without_visibility) plain_spatial
           (interface_format (Some (square 64)) (Some (square 32))) 5 (square 64)
           [plain_feature 0 "height_map" "renders" 256]
           (plain_feature 1 "visibility_map" "renders" 4) []).
  - reflexivity.
  - reflexivity.
  - apply Forall_cons. split; [reflexivity | apply Forall_nil; trivial].
  - reflexivity.
Defined.

Lemma observation_keys_within_spec_witness :
  exists spec,
    observation_spec plain plain_spatial (interface_format (Some (square 64)) None)
    = Ok spec
    /\ dom plain_out ⊆ dom spec
    /\ is_Some (spec !! "control_groups")
    /\ plain_out !! "control_groups" = None.
Proof.
  assert (Hout : transform_obs plain plain_spatial
                   (interface_format (Some (square 64)) None) 5 = Ok plain_out)
    by (vm_compute; reflexivity).
  destruct (observation_spec plain plain_spatial
              (interface_format (Some (square 64)) None)) as [spec|e] eqn:Hspec.
  - exists spec. split; [reflexivity|].
    destruct (observation_keys_within_spec plain plain_spatial
                (interface_format (Some (square 64)) None) 5 plain_out spec
                Hout Hspec) as (Hsub & _ & _ & Hcg & Hno & _).
    auto.
  - exfalso. vm_compute in Hspec. discriminate Hspec.
Defined.

(** A game with feature layers of 84 by 84 on screen and 64 by 64 on the
    minimap, without rendered output. *)
Definition game_with_feature_layer : ResponseGameInfo :=
  {| options := {| feature_layer :=
                     Some {| width := 24;
                             resolution := {| x := 84; y := 84 |};
                             minimap_resolution := {| x := 64; y := 64 |} |};
                   render := None |};
     start_raw_map_size := {| x := 200; y := 176 |} |}.

Lemma custom_features_from_game_info_outcome_witness :
  custom_features_from_game_info plain game_with_feature_layer
    false false (PyBool false) true false false
  = Ok (interface_format (Some {| screen := {| x := 84; y := 84 |};
                                  minimap := {| x := 64; y := 64 |} |}) None)
  /\ render (options game_with_feature_layer) = None
  /\ rgb_dimensions
       (_agent_interface_format plain
          (interface_format (Some {| screen := {| x := 84; y := 84 |};
                                     minimap := {| x := 64; y := 64 |} |}) None))
     = None.
Proof.
  assert (H : custom_features_from_game_info plain game_with_feature_layer
                false false (PyBool false) true false false
              = Ok (interface_format (Some {| screen := {| x := 84; y := 84 |};
                                              minimap := {| x := 64; y := 64 |} |})
                      None)) by reflexivity.
  split; [exact H|].
  destruct (proj2 (custom_features_from_game_info_outcome plain
                     game_with_feature_layer false false (PyBool false) true
                     false false) _ H)
    as (Hrender & dims & aif & _ & _ & _ & Hrgb).
  auto.
Defined.

(** ** The RGB configurations on a toolkit that checks its arguments *)

(** The plain toolkit with other constructors for the base class and for
    [features.Dimensions]. *)
Definition with_constructors (lib : Toolkit Z (list Z) Z Z AgentInterfaceFormat)
    (init : option AgentInterfaceFormat -> option Point -> result AgentInterfaceFormat)
    (dimensions : Z * Z -> Z * Z -> result Dimensions)
    : Toolkit Z (list Z) Z Z AgentInterfaceFormat :=
  {| colors_winter := colors_winter lib;
     colors_VISIBILITY_PALETTE := colors_VISIBILITY_PALETTE lib;
     colors_CREEP_PALETTE := colors_CREEP_PALETTE lib;
     colors_CAMERA_PALETTE := colors_CAMERA_PALETTE lib;
     colors_PLAYER_ABSOLUTE_PALETTE := colors_PLAYER_ABSOLUTE_PALETTE lib;
     colors_PLAYER_RELATIVE_PALETTE := colors_PLAYER_RELATIVE_PALETTE lib;
     colors_unit_type := colors_unit_type lib;
     UNIT_TYPES := UNIT_TYPES lib;
     SCREEN_FEATURES := SCREEN_FEATURES lib;
     MINIMAP_FEATURES := MINIMAP_FEATURES lib;
     len_UnitLayer := len_UnitLayer lib;
     len_Player := len_Player lib;
     len_ScoreCumulative := len_ScoreCumulative lib;
     len_ScoreByCategory := len_ScoreByCategory lib;
     len_ScoreCategories := len_ScoreCategories lib;
     len_ScoreByVital := len_ScoreByVital lib;
     len_ScoreVitals := len_ScoreVitals lib;
     len_FeatureUnit := len_FeatureUnit lib;
     len_UnitCounts := len_UnitCounts lib;
     Features__init__ := init;
     base_agent_interface_format := base_agent_interface_format lib;
     Dimensions_new := dimensions;
     AgentInterfaceFormat_new := AgentInterfaceFormat_new lib;
     np_empty := np_empty lib;
     np_array_zero := np_array_zero lib;
     np_zeros := np_zeros lib;
     astype_int32 := astype_int32 lib;
     Feature_unpack := Feature_unpack lib;
     np_stack := np_stack lib;
     NamedNumpyArray := NamedNumpyArray lib |}.

(** A base class that wants the map size for the camera of the feature
    units, and dimensions that must be positive. *)
Definition init_with_camera (aif : option AgentInterfaceFormat)
    (map_size : option Point) : result AgentInterfaceFormat :=
  match aif with
  | None => Raise (ValueError "Please specify agent_interface_format")
  | Some a =>
      if use_feature_units a then
        match map_size with
        | None => Raise (ValueError "Either pass the game_info with raw enabled, or map_size")
        | Some _ => Ok a
        end
      else Ok a
  end.

Definition positive_dimensions (s m : Z * Z) : result Dimensions :=
  if (0 <? fst s) && (0 <? snd s) && (0 <? fst m) && (0 <? snd m)
  then Ok {| screen := {| x := fst s; y := snd s |};
             minimap := {| x := fst m; y := snd m |} |}
  else Raise (ValueError "screen and minimap must be positive").

Definition checking : Toolkit Z (list Z) Z Z AgentInterfaceFormat :=
  with_unpack (with_constructors plain init_with_camera positive_dimensions)
    unpack_without_visibility.

(** An interface format with [rgb_dimensions] and feature units. *)
Definition rgb_with_units : AgentInterfaceFormat :=
  {| feature_dimensions := Some (square 64); rgb_dimensions := Some (square 32);
     use_feature_units := true; use_raw_units := false;
     use_unit_counts := false; use_camera_position := false;
     camera_width_world_units := 24; action_space := PyBool false;
     hide_specific_actions := true |}.

(** Game options with [render] and a feature layer without resolution. *)
Definition game_with_render : ResponseGameInfo :=
  {| options := {| feature_layer := Some default_SpatialCameraSetup;
                   render := Some default_SpatialCameraSetup |};
     start_raw_map_size := {| x := 200; y := 176 |} |}.

(** C3 (as the specification states it, refuted): with [rgb_dimensions] set, or with the
    [render] field, the exception is not always [NotImplementedError].  On a
    toolkit that checks its arguments the constructor raises the
    [ValueError] of the base class, [transform_obs] the [ValueError] of
    [unpack], and [custom_features_from_game_info] the [ValueError] of
    [features.Dimensions]: these calls come before the checks. *)
Lemma rgb_configurations_counterexample :
  ~ ((forall aif map_size,
        (exists a, aif = Some a /\ is_Some (rgb_dimensions a)) ->
        CustomFeatures__init__ checking aif map_size = Raise NotImplementedError)
     \/ (forall spatial self obs,
           is_Some (rgb_dimensions (_agent_interface_format checking self)) ->
           transform_obs checking spatial self obs = Raise NotImplementedError)
     \/ (forall game_info,
           is_Some (render (options game_info)) ->
           custom_features_from_game_info checking game_info
             false false (PyBool false) true false false
           = Raise NotImplementedError)).
Proof.
  intros [H | [H | H]].
  - specialize (H (Some rgb_with_units) None).
    assert (Hx : CustomFeatures__init__ checking (Some rgb_with_units) None
                 = Raise (ValueError "Either pass the game_info with raw enabled, or map_size"))
      by reflexivity.
    rewrite Hx in H. discriminate H. exists rgb_with_units.
    split; [reflexivity | eexists; reflexivity].
  - specialize (H plain_spatial rgb_with_units 5).
    assert (Hx : transform_obs checking plain_spatial rgb_with_units 5
                 = Raise (ValueError "Protocol message has no visibility_map field"))
      by reflexivity.
    rewrite Hx in H. discriminate H. eexists. reflexivity.
  - specialize (H game_with_render).
    assert (Hx : custom_features_from_game_info checking game_with_render
                   false false (PyBool false) true false false
                 = Raise (ValueError "screen and minimap must be positive"))
      by reflexivity.
    rewrite Hx in H. discriminate H. eexists. reflexivity.
Qed.

(** The four places on the plain toolkit, where every call before the checks
    returns, and on the checking toolkit, where the calls before the checks
    raise first. *)
Lemma rgb_configurations_not_implemented_witness :
  let rgb := interface_format None (Some (square 64)) in
  let both := interface_format (Some (square 64)) (Some (square 32)) in
  (CustomFeatures__init__ plain (Some rgb) None = Raise NotImplementedError
   /\ observation_spec plain plain_spatial both = Raise NotImplementedError
   /\ transform_obs plain plain_spatial both 5 = Raise NotImplementedError
   /\ custom_features_from_game_info plain
        {| options := {| feature_layer := Some {| width := 24;
                                                 resolution := {| x := 84; y := 84 |};
                                                 minimap_resolution := {| x := 64; y := 64 |} |};
                         render := Some default_SpatialCameraSetup |};
           start_raw_map_size := {| x := 200; y := 176 |} |}
        false false (PyBool false) true false false
      = Raise NotImplementedError)
  /\ (CustomFeatures__init__ checking (Some rgb_with_units) None
      = Raise (ValueError "Either pass the game_info with raw enabled, or map_size")
      /\ returns (transform_obs checking plain_spatial rgb_with_units 5) = false
      /\ returns (custom_features_from_game_info checking game_with_render
                    false false (PyBool false) true false false) = false
      /\ custom_features_from_game_info checking game_with_render
           false false (PyBool false) true false false
         = Raise (ValueError "screen and minimap must be positive")).
Proof.
  cbv zeta. split.
  - destruct (rgb_configurations_not_implemented plain) as (H1 & H2 & H3 & H4 & _).
    split.
    { exact (H1 (Some (interface_format None (Some (square 64)))) None
                (interface_format None (Some (square 64))) (square 64)
                eq_refl eq_refl). }
    split.
    { exact (H2 plain_spatial
                (interface_format (Some (square 64)) (Some (square 32)))
                (square 32) eq_refl). }
    split.
    + apply (H3 plain_spatial
                (interface_format (Some (square 64)) (Some (square 32)))
                5 (square 32) eq_refl).
      intros dims Hd. injection Hd as <-. repeat split.
    + apply H4 with (r := default_SpatialCameraSetup); [reflexivity|].
      intros fl Hfl. reflexivity.
  - destruct (rgb_configurations_not_implemented checking)
      as (_ & _ & _ & _ & H5 & H6 & H7).
    split.
    { exact (H5 (Some rgb_with_units) None _ eq_refl). }
    split.
    { exact (proj1 (H6 plain_spatial rgb_with_units 5 (square 32) eq_refl)). }
    destruct (H7 game_with_render false false (PyBool false) true false false
                default_SpatialCameraSetup eq_refl) as [Hret Hexn].
    split; [exact Hret|].
    exact (Hexn default_SpatialCameraSetup _ eq_refl eq_refl).
Defined.
